(** * Recipe preprocessing (src/preprocessing.py): conversions of the recipes table

    A shallow embedding of the conversion pipeline
    [convert_recipes_for_univariate] and of its four stages, with the data
    frames as values (columns of cells in column order) and, further down, as
    objects of a store, to follow the assignments [df[col] = ...] the stages
    perform on their working copy.

    The code calls three libraries.  What it relies on is modelled as follows.
    - [pd.isna(x)] is a boolean for a scalar and an array of booleans for a
      list (pandas converts the list with [np.asarray(x, dtype=object)]).  The
      code uses the result as the condition of an [if]; the truth value of an
      array with more than one element raises [ValueError] (NumPy), the one of
      an array with one element is that element, the one of an empty array is
      [False] up to NumPy 2.1 and raises from NumPy 2.2 on: [empty_truth_raises].
    - [ast.literal_eval] is a parameter, [literal_eval]: it gives a value,
      raises what line 61 catches (ValueError, SyntaxError), or raises
      something else (TypeError, MemoryError, RecursionError).
    - [pd.to_datetime(s, errors="coerce")] gives a datetime64 column of the
      length of [s], with NaT where a cell does not parse; which timestamp a
      cell parses to is a parameter, [parse_datetime], that may depend on the
      whole column (pandas infers one format per column).
    - [s.dt] raises AttributeError unless [s] is a datetime64 column, and
      [s.astype("category")] raises TypeError when a value is not hashable.
    Frames are taken with pairwise distinct column labels ([df[col]] is then
    one column), and on one index: a frame has [nrows] rows. *)

From Stdlib Require Import ZArith QArith String List Lia.
From stdpp Require Import base list strings.

Close Scope Q_scope.
Set Warnings "-register-all".

(** ** Values *)

(** What the code observes of a [pd.Timestamp]. *)
Record timestamp := Timestamp {
  ts_year : Z;
  ts_month : Z;
  ts_day : Z;
  ts_dayofweek : Z;
  ts_time : Z
}.

(** A cell of a data frame.  [Absent] stands for every value [pd.isna] answers
    [True] for: [None], [float("nan")], [pd.NaT], [pd.NA].  [Dict] stands for a
    [dict] (or a [set]): not a list, not a string, not hashable, and a scalar
    for NumPy.  Tuples are not modelled. *)
Inductive cell :=
| Absent
| Str (s : string)
| Num (q : Q)
| Stamp (t : timestamp)
| Seq (items : list cell)
| Dict (id : nat).

(** The exceptions that can leave the module. *)
Inductive exn :=
| AmbiguousTruth
    (* ValueError: the truth value of an array is ambiguous (NumPy) *)
| LiteralEvalEscapes
    (* TypeError, MemoryError or RecursionError out of ast.literal_eval *)
| NameCollision (dupes : list string)
    (* the ValueError of split_nutrition_columns, with the list it prints *)
| KeyError (name : string)
    (* df[name] for a label that is no column *)
| NotDatetimeLike
    (* AttributeError: Can only use .dt accessor with datetimelike values *)
| Unhashable.
    (* TypeError: unhashable type, out of astype("category") *)

Inductive outcome (A : Type) :=
| Ok (a : A)
| Raise (e : exn).
Arguments Ok {A} a.
Arguments Raise {A} e.

Definition bind {A B} (m : outcome A) (k : A -> outcome B) : outcome B :=
  match m with
  | Ok a => k a
  | Raise e => Raise e
  end.

Declare Scope outcome_scope.
Delimit Scope outcome_scope with outcome.
Notation "x <- m ;; k" := (bind m (fun x => k))
  (at level 100, m at next level, right associativity) : outcome_scope.
Open Scope outcome_scope.

(** What [ast.literal_eval] does with a string. *)
Inductive eval_result :=
| Evaluated (v : cell)
| Malformed            (* raises ValueError or SyntaxError *)
| Escapes.             (* raises TypeError, MemoryError or RecursionError *)

(** The library behaviour the development is parametric in. *)
Record pylib := PyLib {
  empty_truth_raises : bool;
  literal_eval : string -> eval_result;
  (* [parse_datetime col x]: the timestamp pd.to_datetime(col, errors="coerce")
     gives the cell [x] of the column [col]; [None] is NaT. *)
  parse_datetime : list cell -> cell -> option timestamp
}.

(** ** Data frames *)

(** The program tells three kinds of column apart: datetime64 ([.dt] works),
    category, and everything else. *)
Inductive dtype := Plain | Datetime | Category.

Record column := Column {
  col_dtype : dtype;
  cells : list cell
}.

(** A data frame: the length of its index and its columns, in order. *)
Record table := Table {
  nrows : nat;
  columns : list (string * column)
}.

Definition names (df : table) : list string := map fst (columns df).

(** [col in df.columns] *)
Definition has_column (df : table) (col : string) : bool :=
  bool_decide (col ∈ names df).

Fixpoint lookup_column (col : string) (cs : list (string * column)) : option column :=
  match cs with
  | [] => None
  | (n, c) :: rest => if String.eqb n col then Some c else lookup_column col rest
  end.

(** [df[col]] *)
Definition getitem (df : table) (col : string) : outcome column :=
  match lookup_column col (columns df) with
  | Some c => Ok c
  | None => Raise (KeyError col)
  end.

Fixpoint assign (col : string) (c : column) (cs : list (string * column))
  : list (string * column) :=
  match cs with
  | [] => [(col, c)]
  | (n, c0) :: rest =>
      if String.eqb n col then (n, c) :: rest else (n, c0) :: assign col c rest
  end.

(** [df[col] = c]: in place of the column of that name, or as a new last column. *)
Definition setitem (df : table) (col : string) (c : column) : table :=
  Table (nrows df) (assign col c (columns df)).

(** [pd.concat([df, other], axis=1)] for two frames on the same index. *)
Definition concat_columns (df other : table) : table :=
  Table (nrows df) (columns df ++ columns other).

(** [df.drop(columns=[col])] *)
Definition drop_column (df : table) (col : string) : table :=
  Table (nrows df) (List.filter (fun nc => negb (String.eqb (fst nc) col)) (columns df)).

(** [pd.DataFrame(rows, columns=cols, index=...)] for rows of [length cols] entries. *)
Definition frame_of_rows (n : nat) (cols : list string) (rows : list (list cell)) : table :=
  Table n (imap (fun j name => (name, Column Plain (map (fun row => nth j row Absent) rows))) cols).

(** [series.apply(f)] *)
Fixpoint apply (f : cell -> outcome cell) (xs : list cell) : outcome (list cell) :=
  match xs with
  | [] => Ok []
  | x :: rest =>
      y <- f x ;;
      ys <- apply f rest ;;
      Ok (y :: ys)
  end.

(** ** pd.isna as a condition *)

(** The most dimensions an array has (64 since NumPy 2.0, 32 before). *)
Definition NPY_MAXDIMS : nat := 64.

Definition checknull (x : cell) : bool :=
  match x with Absent => true | _ => false end.

Definition unSeq (x : cell) : option (list cell) :=
  match x with Seq l => Some l | _ => None end.

Fixpoint all_seq (xs : list cell) : option (list (list cell)) :=
  match xs with
  | [] => Some []
  | x :: rest =>
      match unSeq x, all_seq rest with
      | Some l, Some ls => Some (l :: ls)
      | _, _ => None
      end
  end.

(** The shape of [np.asarray(l, dtype=object)], from the lists at one depth:
    a dimension is kept as long as everything at that depth is a list of one
    and the same length. *)
Fixpoint np_shape (fuel : nat) (level : list (list cell)) : list nat :=
  match fuel, level with
  | S fuel', l0 :: _ =>
      let n := length l0 in
      if forallb (fun l => Nat.eqb (length l) n) level then
        n :: match all_seq (concat level) with
             | Some next => if Nat.eqb n 0 then [] else np_shape fuel' next
             | None => []
             end
      else []
  | _, _ => []
  end.

(** The only element of an array of shape (1, ..., 1), [d] dimensions deep. *)
Fixpoint np_item (d : nat) (x : cell) : cell :=
  match d, x with
  | S d', Seq [y] => np_item d' y
  | _, _ => x
  end.

Section Library.

Context (lib : pylib).

(** [bool(pd.isna(x))], as [if pd.isna(x):] evaluates it. *)
Definition isna_truth (x : cell) : outcome bool :=
  match x with
  | Seq l =>
      let shape := np_shape NPY_MAXDIMS [l] in
      match fold_right Nat.mul 1 shape with
      | 0 => if empty_truth_raises lib then Raise AmbiguousTruth else Ok false
      | 1 => Ok (checknull (np_item (length shape) x))
      | _ => Raise AmbiguousTruth
      end
  | _ => Ok (checknull x)
  end.

(** ** Helpers (lines 49-101) *)

Definition _safe_literal_eval (x : cell) : outcome cell :=
  b <- match x with
       | Seq _ | Dict _ => Ok true
       | _ => isna_truth x
       end ;;
  if b : bool then Ok x
  else match x with
       | Str s =>
           match literal_eval lib s with
           | Evaluated v => Ok v
           | Malformed => Ok x
           | Escapes => Raise LiteralEvalEscapes
           end
       | _ => Ok x
       end.

Definition _ensure_list_or_none (x : cell) : outcome cell :=
  b <- isna_truth x ;;
  if b : bool then Ok Absent
  else match x with
       | Seq _ => Ok x
       | _ =>
           parsed <- _safe_literal_eval x ;;
           Ok (match parsed with Seq _ => parsed | _ => Absent end)
       end.

Definition _copy (df : table) : table := df.

Definition _pad_or_none (lst : cell) (n : nat) : list cell :=
  match lst with
  | Seq l =>
      if Nat.eqb (length l) n then l
      else if Nat.ltb (length l) n then l ++ replicate (n - length l) Absent
      else take n l
  | _ => replicate n Absent
  end.

(** ** Stages (lines 108-199) *)

Definition apply_series (f : cell -> outcome cell) (s : column) : outcome column :=
  ys <- apply f (cells s) ;;
  Ok (Column Plain ys).

Fixpoint convert_list_like_loop (df : table) (list_like_cols : list string)
  : outcome table :=
  match list_like_cols with
  | [] => Ok df
  | col :: rest =>
      if has_column df col then
        s <- getitem df col ;;
        s' <- apply_series _ensure_list_or_none s ;;
        convert_list_like_loop (setitem df col s') rest
      else convert_list_like_loop df rest
  end.

Definition convert_list_like_columns (df : table) (list_like_cols : list string)
  : outcome table :=
  let df := _copy df in
  convert_list_like_loop df list_like_cols.

Definition split_nutrition_columns (df : table) (nutrition_col : string)
    (output_cols : list string) (drop_original : bool) : outcome table :=
  let df := _copy df in
  if negb (has_column df nutrition_col) then Ok df
  else
    s <- getitem df nutrition_col ;;
    lists <- apply_series _ensure_list_or_none s ;;
    let padded := map (fun x => _pad_or_none x (length output_cols)) (cells lists) in
    let nutri_df := frame_of_rows (nrows df) output_cols padded in
    let dupes := List.filter (fun c => has_column df c) output_cols in
    match dupes with
    | _ :: _ => Raise (NameCollision dupes)
    | [] =>
        let out := concat_columns df nutri_df in
        if drop_original && has_column out nutrition_col
        then Ok (drop_column out nutrition_col)
        else Ok out
    end.

(** A cell under [errors="coerce"]: its timestamp, or NaT. *)
Definition coerce_datetime (ctx : list cell) (x : cell) : cell :=
  match parse_datetime lib ctx x with
  | Some t => Stamp t
  | None => Absent
  end.

(** [pd.to_datetime(s, errors="coerce")] *)
Definition to_datetime (s : column) : column :=
  Column Datetime (map (coerce_datetime (cells s)) (cells s)).

(** The part of a timestamp, NaN for NaT. *)
Definition part_value (part : timestamp -> Z) (x : cell) : cell :=
  match x with
  | Stamp t => Num (inject_Z (part t))
  | _ => Absent
  end.

(** [s.dt.year] and the like. *)
Definition dt (part : timestamp -> Z) (s : column) : outcome column :=
  match col_dtype s with
  | Datetime => Ok (Column Plain (map (part_value part) (cells s)))
  | _ => Raise NotDatetimeLike
  end.

(** [if name in parts: df[name] = df[submitted_col].dt.<part>] *)
Definition add_part (submitted_col : string) (parts : list string)
    (name : string) (part : timestamp -> Z) (df : table) : outcome table :=
  if bool_decide (name ∈ parts) then
    s <- getitem df submitted_col ;;
    p <- dt part s ;;
    Ok (setitem df name p)
  else Ok df.

Definition convert_temporal_columns (df : table) (submitted_col : string)
    (add_parts : bool) (parts : list string) : outcome table :=
  let df := _copy df in
  if has_column df submitted_col then
    s <- getitem df submitted_col ;;
    let df := setitem df submitted_col (to_datetime s) in
    if add_parts then
      df <- add_part submitted_col parts "year" ts_year df ;;
      df <- add_part submitted_col parts "month" ts_month df ;;
      df <- add_part submitted_col parts "day" ts_day df ;;
      df <- add_part submitted_col parts "dayofweek" ts_dayofweek df ;;
      Ok df
    else Ok df
  else Ok df.

Definition hashable (x : cell) : bool :=
  match x with
  | Seq _ | Dict _ => false
  | _ => true
  end.

(** [s.astype("category")]: the categories are the distinct values present. *)
Definition astype_category (s : column) : outcome column :=
  if forallb hashable (cells s) then Ok (Column Category (cells s))
  else Raise Unhashable.

Definition convert_contributor_to_category (df : table) (contributor_col : string)
  : outcome table :=
  let df := _copy df in
  if has_column df contributor_col then
    s <- getitem df contributor_col ;;
    c <- astype_category s ;;
    Ok (setitem df contributor_col c)
  else Ok df.

End Library.

(** ** Constants and configuration (lines 31-42, 206-215) *)

Definition NUTRITION_COLS : list string :=
  ["calories"; "total_fat"; "sugar"; "sodium"; "protein"; "saturated_fat";
   "carbohydrates"].

Definition DEFAULT_LIST_LIKE_COLS : list string :=
  ["tags"; "ingredients"; "steps"; "nutrition"].

Record RecipeConversionConfig := Config {
  list_like_cols : list string;
  nutrition_col : string;
  temporal_col : string;
  add_temporal_parts : bool;
  temporal_parts : list string;
  contributor_col : string;
  drop_original_nutrition : bool
}.

(** [RecipeConversionConfig()] *)
Definition default_config : RecipeConversionConfig := {|
  list_like_cols := DEFAULT_LIST_LIKE_COLS;
  nutrition_col := "nutrition";
  temporal_col := "submitted";
  add_temporal_parts := true;
  temporal_parts := ["year"; "month"];
  contributor_col := "contributor_id";
  drop_original_nutrition := false
|}.

(** ** The pipeline (lines 218-258) *)

Definition convert_recipes_for_univariate (lib : pylib) (df_recipes : table)
    (config : option RecipeConversionConfig) : outcome table :=
  let cfg := match config with Some c => c | None => default_config end in
  let df := _copy df_recipes in
  df <- convert_list_like_columns lib df (list_like_cols cfg) ;;
  df <- (if has_column df (nutrition_col cfg)
         then split_nutrition_columns lib df (nutrition_col cfg) NUTRITION_COLS
                (drop_original_nutrition cfg)
         else Ok df) ;;
  df <- convert_temporal_columns lib df (temporal_col cfg)
          (add_temporal_parts cfg) (temporal_parts cfg) ;;
  convert_contributor_to_category df (contributor_col cfg).

(** What [split_nutrition_columns] returns once the cells are coerced and no
    output label is taken. *)
Definition split_result (df : table) (col : string) (outs : list string)
    (dropit : bool) (lists : column) : table :=
  let padded := map (fun x => _pad_or_none x (length outs)) (cells lists) in
  let out := concat_columns df (frame_of_rows (nrows df) outs padded) in
  if dropit && has_column out col then drop_column out col else out.

(** ** The stages over a store of frames

    The same stages once more, with the frames as objects of a store, so that
    [df = _copy(df)] allocates, [df[col] = ...] updates the object [df] names,
    and [pd.DataFrame], [pd.concat] and [drop] allocate their results.  A
    series ([df[col]], the result of [apply]) is a value: nothing assigns
    into one.  The lists held by the cells are shared between a frame and its
    copy ([DataFrame.copy] does not copy them); no statement of the module
    mutates a list, so they are values too. *)

Definition ref := nat.
Definition store := list table.
Definition prog (A : Type) := store -> outcome A * store.

Definition ret {A} (a : A) : prog A := fun st => (Ok a, st).
Definition throw {A} (e : exn) : prog A := fun st => (Raise e, st).
Definition lift {A} (o : outcome A) : prog A := fun st => (o, st).
Definition seq {A B} (m : prog A) (k : A -> prog B) : prog B :=
  fun st =>
    match m st with
    | (Ok a, st') => k a st'
    | (Raise e, st') => (Raise e, st')
    end.

Declare Scope prog_scope.
Delimit Scope prog_scope with prog.
Notation "x <- m ;; k" := (seq m (fun x => k))
  (at level 100, m at next level, right associativity) : prog_scope.

(** The frame a live reference names. *)
Definition deref (st : store) (r : ref) : table :=
  default (Table 0 []) (st !! r).

Definition new_frame (df : table) : prog ref :=
  fun st => (Ok (length st), (st ++ [df])%list).
Definition frame (r : ref) : prog table :=
  fun st => (Ok (deref st r), st).
Definition update_frame (r : ref) (f : table -> table) : prog unit :=
  fun st => (Ok tt, <[r := f (deref st r)]> st).

Definition _copy_st (r : ref) : prog ref :=
  (df <- frame r ;; new_frame df)%prog.
Definition has_column_st (r : ref) (col : string) : prog bool :=
  (df <- frame r ;; ret (has_column df col))%prog.
Definition getitem_st (r : ref) (col : string) : prog column :=
  (df <- frame r ;; lift (getitem df col))%prog.
Definition setitem_st (r : ref) (col : string) (c : column) : prog unit :=
  update_frame r (fun df => setitem df col c).

Section StoreStages.

Context (lib : pylib).

Fixpoint convert_list_like_loop_st (df : ref) (list_like_cols : list string)
  : prog unit :=
  match list_like_cols with
  | [] => ret tt
  | col :: rest =>
      (present <- has_column_st df col ;;
       if present : bool then
         s <- getitem_st df col ;;
         s' <- lift (apply_series (_ensure_list_or_none lib) s) ;;
         _ <- setitem_st df col s' ;;
         convert_list_like_loop_st df rest
       else convert_list_like_loop_st df rest)%prog
  end.

Definition convert_list_like_columns_st (df : ref) (list_like_cols : list string)
  : prog ref :=
  (df <- _copy_st df ;;
   _ <- convert_list_like_loop_st df list_like_cols ;;
   ret df)%prog.

Definition split_nutrition_columns_st (df : ref) (nutrition_col : string)
    (output_cols : list string) (drop_original : bool) : prog ref :=
  (df <- _copy_st df ;;
   present <- has_column_st df nutrition_col ;;
   if negb present then ret df
   else
     s <- getitem_st df nutrition_col ;;
     lists <- lift (apply_series (_ensure_list_or_none lib) s) ;;
     let padded := map (fun x => _pad_or_none x (length output_cols)) (cells lists) in
     d <- frame df ;;
     nutri_df <- new_frame (frame_of_rows (nrows d) output_cols padded) ;;
     d <- frame df ;;
     let dupes := List.filter (fun c => has_column d c) output_cols in
     match dupes with
     | _ :: _ => throw (NameCollision dupes)
     | [] =>
         d <- frame df ;;
         n <- frame nutri_df ;;
         out <- new_frame (concat_columns d n) ;;
         still <- has_column_st out nutrition_col ;;
         if drop_original && still then
           o <- frame out ;;
           new_frame (drop_column o nutrition_col)
         else ret out
     end)%prog.

Definition add_part_st (submitted_col : string) (parts : list string)
    (name : string) (part : timestamp -> Z) (df : ref) : prog unit :=
  (if bool_decide (name ∈ parts) then
     s <- getitem_st df submitted_col ;;
     p <- lift (dt part s) ;;
     setitem_st df name p
   else ret tt)%prog.

Definition convert_temporal_columns_st (df : ref) (submitted_col : string)
    (add_parts : bool) (parts : list string) : prog ref :=
  (df <- _copy_st df ;;
   present <- has_column_st df submitted_col ;;
   if present : bool then
     s <- getitem_st df submitted_col ;;
     _ <- setitem_st df submitted_col (to_datetime lib s) ;;
     if add_parts then
       _ <- add_part_st submitted_col parts "year" ts_year df ;;
       _ <- add_part_st submitted_col parts "month" ts_month df ;;
       _ <- add_part_st submitted_col parts "day" ts_day df ;;
       _ <- add_part_st submitted_col parts "dayofweek" ts_dayofweek df ;;
       ret df
     else ret df
   else ret df)%prog.

Definition convert_contributor_to_category_st (df : ref) (contributor_col : string)
  : prog ref :=
  (df <- _copy_st df ;;
   present <- has_column_st df contributor_col ;;
   if present : bool then
     s <- getitem_st df contributor_col ;;
     c <- lift (astype_category s) ;;
     _ <- setitem_st df contributor_col c ;;
     ret df
   else ret df)%prog.

Definition convert_recipes_for_univariate_st (df_recipes : ref)
    (config : option RecipeConversionConfig) : prog ref :=
  let cfg := match config with Some c => c | None => default_config end in
  (df <- _copy_st df_recipes ;;
   df <- convert_list_like_columns_st df (list_like_cols cfg) ;;
   present <- has_column_st df (nutrition_col cfg) ;;
   df <- (if present : bool
          then split_nutrition_columns_st df (nutrition_col cfg) NUTRITION_COLS
                 (drop_original_nutrition cfg)
          else ret df) ;;
   df <- convert_temporal_columns_st df (temporal_col cfg)
           (add_temporal_parts cfg) (temporal_parts cfg) ;;
   convert_contributor_to_category_st df (contributor_col cfg))%prog.

End StoreStages.

(** ** What a call does to the store *)

(** Every frame of [st] is in [st'], under the same reference, as it was. *)
Definition leaves_alone (st st' : store) : Prop :=
  forall (r : ref) (df : table), st !! r = Some df -> st' !! r = Some df.

(** The call ended as the outcome [o] over frames says: with a reference
    that names no frame of [st] and names the frame of [o] in [st'], or with
    the exception of [o]. *)
Definition ends_as (o : outcome table) (st : store) (res : outcome ref)
    (st' : store) : Prop :=
  match o, res with
  | Ok df, Ok r => st !! r = None /\ st' !! r = Some df
  | Raise e, Raise e' => e = e'
  | _, _ => False
  end.

(** The same, for the proofs: [st'] is [st] with frames appended, and the
    reference returned is [n] or above. *)
Definition returns (n : nat) (o : outcome table) (st : store)
    (out : outcome ref * store) : Prop :=
  (exists extra, snd out = st ++ extra)
  /\ match o, fst out with
     | Ok df, Ok r => n <= r /\ snd out !! r = Some df
     | Raise e, Raise e' => e = e'
     | _, _ => False
     end.

(** ** The four stages as one family *)

Inductive stage :=
| ListParser (list_like_cols : list string)
| NutritionSplitter (nutrition_col : string) (output_cols : list string)
    (drop_original : bool)
| TemporalConverter (submitted_col : string) (add_parts : bool)
    (parts : list string)
| CategoryCaster (contributor_col : string).

Definition run_stage (lib : pylib) (s : stage) (df : table) : outcome table :=
  match s with
  | ListParser cols => convert_list_like_columns lib df cols
  | NutritionSplitter col outs dropit => split_nutrition_columns lib df col outs dropit
  | TemporalConverter col add parts => convert_temporal_columns lib df col add parts
  | CategoryCaster col => convert_contributor_to_category df col
  end.

Definition run_stage_st (lib : pylib) (s : stage) (df : ref) : prog ref :=
  match s with
  | ListParser cols => convert_list_like_columns_st lib df cols
  | NutritionSplitter col outs dropit =>
      split_nutrition_columns_st lib df col outs dropit
  | TemporalConverter col add parts =>
      convert_temporal_columns_st lib df col add parts
  | CategoryCaster col => convert_contributor_to_category_st df col
  end.

(** The columns a stage is configured to convert. *)
Definition source_columns (s : stage) : list string :=
  match s with
  | ListParser cols => cols
  | NutritionSplitter col _ _ => [col]
  | TemporalConverter col _ _ => [col]
  | CategoryCaster col => [col]
  end.

(** ** Rows *)



(** [df.iloc[[i]]]: the frame of the row at position [i]. *)
Definition row_of_column (i : nat) (c : column) : column :=
  Column (col_dtype c) [nth i (cells c) Absent].

Definition row (df : table) (i : nat) : table :=
  Table 1 (map (fun nc => (fst nc, row_of_column i (snd nc))) (columns df)).




(** ** The configuration surface as the specification lists it (section 6) *)

Record PipelineConfig := Surface {
  surface_list_like_columns : list string;
  surface_nutrition_column : string;
  surface_nutrition_output_names : list string;
  surface_temporal_column : string;
  surface_add_temporal_parts : bool;
  surface_temporal_parts : list string;
  surface_category_column : string;
  surface_drop_original_nutrition : bool
}.

Definition spec_defaults : PipelineConfig := {|
  surface_list_like_columns := ["tags"; "ingredients"; "steps"; "nutrition"];
  surface_nutrition_column := "nutrition";
  surface_nutrition_output_names :=
    ["calories"; "total_fat"; "sugar"; "sodium"; "protein"; "saturated_fat";
     "carbohydrates"];
  surface_temporal_column := "submitted";
  surface_add_temporal_parts := true;
  surface_temporal_parts := ["year"; "month"];
  surface_category_column := "contributor_id";
  surface_drop_original_nutrition := false
|}.

(** Stages 4.1 to 4.4 in order, each reading and writing the columns the
    surface names (section 4.5). *)
Definition spec_pipeline (lib : pylib) (df : table) (s : PipelineConfig)
  : outcome table :=
  df <- convert_list_like_columns lib df (surface_list_like_columns s) ;;
  df <- split_nutrition_columns lib df (surface_nutrition_column s)
          (surface_nutrition_output_names s) (surface_drop_original_nutrition s) ;;
  df <- convert_temporal_columns lib df (surface_temporal_column s)
          (surface_add_temporal_parts s) (surface_temporal_parts s) ;;
  convert_contributor_to_category df (surface_category_column s).

(** What a configuration record of the code settles of the surface: all of
    it but the output names, which the pipeline takes from [NUTRITION_COLS]. *)
Definition surface_of (cfg : RecipeConversionConfig) : PipelineConfig := {|
  surface_list_like_columns := list_like_cols cfg;
  surface_nutrition_column := nutrition_col cfg;
  surface_nutrition_output_names := NUTRITION_COLS;
  surface_temporal_column := temporal_col cfg;
  surface_add_temporal_parts := add_temporal_parts cfg;
  surface_temporal_parts := temporal_parts cfg;
  surface_category_column := contributor_col cfg;
  surface_drop_original_nutrition := drop_original_nutrition cfg
|}.

(** The labels the pipeline may assign to or drop under a configuration. *)
Definition TEMPORAL_PARTS : list string := ["year"; "month"; "day"; "dayofweek"].

(** The part columns a call of [convert_temporal_columns] assigns. *)
Definition requested_parts (add_parts : bool) (parts : list string) : list string :=
  if add_parts then List.filter (fun p => bool_decide (p ∈ parts)) TEMPORAL_PARTS
  else [].

Definition written_columns (cfg : RecipeConversionConfig) : list string :=
  list_like_cols cfg
  ++ (if drop_original_nutrition cfg then [nutrition_col cfg] else [])
  ++ NUTRITION_COLS
  ++ [temporal_col cfg]
  ++ requested_parts (add_temporal_parts cfg) (temporal_parts cfg)
  ++ [contributor_col cfg].

(** The default surface with other names for the seven nutrition columns. *)
Definition renamed_surface : PipelineConfig := {|
  surface_list_like_columns := ["tags"; "ingredients"; "steps"; "nutrition"];
  surface_nutrition_column := "nutrition";
  surface_nutrition_output_names :=
    ["kcal"; "fat"; "sugars"; "salt"; "proteins"; "sat_fat"; "carbs"];
  surface_temporal_column := "submitted";
  surface_add_temporal_parts := true;
  surface_temporal_parts := ["year"; "month"];
  surface_category_column := "contributor_id";
  surface_drop_original_nutrition := false
|}.


(** ** Sample data *)

(** A library instance for the examples: it agrees with [ast.literal_eval] and
    [pd.to_datetime] on the strings the examples use. *)
Definition sample_literal_eval (s : string) : eval_result :=
  if String.eqb s "[1, 2, 3]" then Evaluated (Seq [Num 1; Num 2; Num 3])
  else Malformed.

Definition sample_parse_datetime (_ : list cell) (x : cell) : option timestamp :=
  match x with
  | Str s =>
      if String.eqb s "2020-01-15" then Some (Timestamp 2020 1 15 2 0) else None
  | Stamp t => Some t
  | _ => None
  end.

Definition sample_lib : pylib :=
  PyLib true sample_literal_eval sample_parse_datetime.

Definition plain (xs : list cell) : column := Column Plain xs.

(** One recipe whose nutrition is missing. *)
Definition recipes_missing_nutrition : table :=
  Table 1 [("nutrition", plain [Absent])].

(** The same recipe after one run of the pipeline. *)
Definition recipes_converted_once : table :=
  Table 1 [("nutrition", plain [Absent]); ("calories", plain [Absent]);
           ("total_fat", plain [Absent]); ("sugar", plain [Absent]);
           ("sodium", plain [Absent]); ("protein", plain [Absent]);
           ("saturated_fat", plain [Absent]); ("carbohydrates", plain [Absent])].

(** One recipe whose nutrition is the list [1.0, 2.0]. *)
Definition recipes_short_list : table :=
  Table 1 [("nutrition", plain [Seq [Num 1; Num 2]])].

(** One recipe whose nutrition is the list [51.5, 0, 13, 0, 2, 0, 3]. *)
Definition recipes_nutrition_list : table :=
  Table 1 [("nutrition",
            plain [Seq [Num 51.5; Num 0; Num 13; Num 0; Num 2; Num 0; Num 3]])].

(** One recipe whose tags are the list ["easy", "quick"]. *)
Definition recipes_tag_list : table :=
  Table 1 [("tags", plain [Seq [Str "easy"; Str "quick"]])].

(** Two recipes with a submission date, one of them with a year already. *)
Definition recipes_with_year : table :=
  Table 2 [("submitted", plain [Str "2020-01-15"; Str "2019-02-30"]);
           ("year", plain [Str "MMXX"; Str "MMXIX"])].


(** A table without the nutrition column and with a calories column. *)
Definition recipes_calories_only : table :=
  Table 2 [("name", plain [Str "soup"; Str "cake"]);
           ("calories", plain [Num 51.5; Num 300])].

(** [recipes_with_year] after [convert_temporal_columns] with the part year. *)
Definition recipes_with_year_converted : table :=
  Table 2 [("submitted",
            Column Datetime [Stamp (Timestamp 2020 1 15 2 0); Absent]);
           ("year", plain [Num 2020; Absent])].

(** One recipe with a name, an unreadable nutrition and a date. *)
Definition recipes_named : table :=
  Table 1 [("name", plain [Str "soup"]);
           ("nutrition", plain [Str "not-a-list"]);
           ("submitted", plain [Str "2020-01-15"])].

(** Two recipes as they are loaded: the nutrition still a string, or missing. *)
Definition recipes_raw : table :=
  Table 2 [("name", plain [Str "soup"; Str "cake"]);
           ("nutrition", plain [Str "[1, 2, 3]"; Absent])].

(** * Around the pipeline: loading, validation, frequencies, description length

    Three more modules work on the same tables: src/data_loader.py (what is
    read back from disk, and the validation of a loaded table),
    src/utils/Descriptive.py (the frequencies of the items of a list column)
    and src/feature_engineering.py (the length of a description).  What they
    rely on is modelled as follows.
    - A list column written to a parquet file comes back as one-dimensional
      NumPy arrays: a cell of a loaded frame is a value or such an array.
    - [Counter] keeps its keys in the order of their first insertion, and
      [most_common(k)] is [heapq.nlargest(k, ...)] by count: the first [k]
      entries of a stable sort by decreasing count.
    - [pd.DataFrame(rows, columns=...)] infers datetime64 for a column of
      timestamps.
    - [str.split()] cuts a string at its runs of Unicode whitespace; strings
      are taken as their UTF-8 bytes.
    - What [str] prints for a list or a dict, and [fillna] on a column that is
      datetime64 or category, are parameters ([textlib]). *)

(** ** What a coercion of cells can raise *)

(** The two exceptions that come out of [_ensure_list_or_none]. *)
Definition coercion_error (e : exn) : Prop :=
  e = AmbiguousTruth \/ e = LiteralEvalEscapes.

(** ** Frames read back from disk (src/data_loader.py, lines 175-204)

    A list column written to a parquet file comes back as one-dimensional
    NumPy arrays; [_to_list_or_none] is the helper that turns the cells of
    such a column into lists again. *)

(** A cell of a loaded frame: a value as above, or a one-dimensional array. *)
Inductive loaded :=
| Value (x : cell)
| NdArray (items : list cell).

(** Lines 175-195.  The tests come in the order of the code: [None] (here
    [Absent], which the [pd.isna] test answers the same way), a list, an
    array, a missing value, a string.  [pd.isna] sits in a [try] whose
    [except Exception: pass] swallows what it raises; [ast.literal_eval] sits
    in one that catches ValueError and SyntaxError only. *)
Definition _to_list_or_none (lib : pylib) (x : loaded) : outcome cell :=
  match x with
  | Value (Seq l) => Ok (Seq l)
  | NdArray items => Ok (Seq items)
  | Value x =>
      match isna_truth lib x with
      | Ok true => Ok Absent
      | Ok false | Raise _ =>
          match x with
          | Str s =>
              match literal_eval lib s with
              | Evaluated (Seq l) => Ok (Seq l)
              | Evaluated _ | Malformed => Ok Absent
              | Escapes => Raise LiteralEvalEscapes
              end
          | _ => Ok Absent
          end
      end
  end.

(** A loaded frame: its columns, in order. *)
Definition loaded_frame := list (string * list loaded).

Fixpoint lookup_loaded (col : string) (df : loaded_frame) : option (list loaded) :=
  match df with
  | [] => None
  | (n, s) :: rest => if String.eqb n col then Some s else lookup_loaded col rest
  end.

(** [out[col] = s] *)
Fixpoint assign_loaded (col : string) (s : list loaded) (df : loaded_frame)
  : loaded_frame :=
  match df with
  | [] => [(col, s)]
  | (n, s0) :: rest =>
      if String.eqb n col then (n, s) :: rest
      else (n, s0) :: assign_loaded col s rest
  end.

(** [series.apply(f)] on a loaded column. *)
Fixpoint apply_loaded (f : loaded -> outcome cell) (xs : list loaded)
  : outcome (list loaded) :=
  match xs with
  | [] => Ok []
  | x :: rest =>
      y <- f x ;;
      ys <- apply_loaded f rest ;;
      Ok (Value y :: ys)
  end.

Fixpoint _normalize_list_columns_loop (lib : pylib) (out : loaded_frame)
    (list_cols : list string) : outcome loaded_frame :=
  match list_cols with
  | [] => Ok out
  | c :: rest =>
      match lookup_loaded c out with
      | Some s =>
          s' <- apply_loaded (_to_list_or_none lib) s ;;
          _normalize_list_columns_loop lib (assign_loaded c s' out) rest
      | None => _normalize_list_columns_loop lib out rest
      end
  end.

(** Lines 198-204; [df.copy()] is the frame itself, as a value. *)
Definition _normalize_list_columns (lib : pylib) (df : loaded_frame)
    (list_cols : list string) : outcome loaded_frame :=
  _normalize_list_columns_loop lib df list_cols.

(** The default of [load_parquet_safe] (line 208). *)
Definition DEFAULT_LOADED_LIST_COLS : list string := ["tags"; "ingredients"; "steps"].

(** A cell as [_to_list_or_none] leaves it: a list or [None]. *)
Definition normalized (x : loaded) : Prop :=
  x = Value Absent \/ exists l, x = Value (Seq l).

(** Two recipes as they come back from a parquet file. *)
Definition recipes_loaded : loaded_frame :=
  [("name", [Value (Str "soup"); Value (Str "cake")]);
   ("tags", [NdArray [Str "easy"; Str "quick"]; Value Absent]);
   ("steps", [Value (Str "[1, 2, 3]"); Value (Str "stir")])].

Definition recipes_loaded_normalized : loaded_frame :=
  [("name", [Value (Str "soup"); Value (Str "cake")]);
   ("tags", [Value (Seq [Str "easy"; Str "quick"]); Value Absent]);
   ("steps", [Value (Seq [Num 1; Num 2; Num 3]); Value Absent])].

(** ** Validation of a table (src/data_loader.py, lines 96-110) *)

(** The two ValueErrors of [validate_dataframe], with what their messages
    print. *)
Inductive validation_error :=
| EmptyFrame
| MissingColumns (missing present : list string).

(** [df.empty]: one of the two axes has length zero. *)
Definition empty (df : table) : bool :=
  Nat.eqb (nrows df) 0 || Nat.eqb (length (columns df)) 0.

Definition validate_dataframe (df : table) (expected_columns : list string)
  : validation_error + bool :=
  if empty df then inl EmptyFrame
  else
    match List.filter (fun c => negb (has_column df c)) expected_columns with
    | [] => inr true
    | (_ :: _) as missing => inl (MissingColumns missing (names df))
    end.

(** ** Frequencies of the items of a list column
       (src/utils/Descriptive.py, lines 121-140) *)

Definition eqb_timestamp (t u : timestamp) : bool :=
  Z.eqb (ts_year t) (ts_year u) && Z.eqb (ts_month t) (ts_month u)
  && Z.eqb (ts_day t) (ts_day u) && Z.eqb (ts_dayofweek t) (ts_dayofweek u)
  && Z.eqb (ts_time t) (ts_time u).

(** [a == b] for two keys of a dict: numbers by their value, strings and
    timestamps by their content.  [Absent] is read as [None] here. *)
Definition same_key (a b : cell) : bool :=
  match a, b with
  | Absent, Absent => true
  | Str s, Str t => String.eqb s t
  | Num p, Num q => Qeq_bool p q
  | Stamp t, Stamp u => eqb_timestamp t u
  | _, _ => false
  end.

(** [counts[x] += 1] in a dict that keeps its keys in insertion order. *)
Fixpoint tally (x : cell) (counts : list (cell * nat)) : list (cell * nat) :=
  match counts with
  | [] => [(x, 1)]
  | (y, n) :: rest =>
      if same_key y x then (y, S n) :: rest else (y, n) :: tally x rest
  end.

(** [Counter(items)]: TypeError for an item that cannot be hashed. *)
Definition Counter (items : list cell) : outcome (list (cell * nat)) :=
  if forallb hashable items
  then Ok (fold_left (fun counts x => tally x counts) items [])
  else Raise Unhashable.

(** One step of a stable sort by decreasing count: [p] goes in front of the
    first entry that does not count more. *)
Fixpoint insert_by_count (p : cell * nat) (sorted : list (cell * nat))
  : list (cell * nat) :=
  match sorted with
  | [] => [p]
  | q :: rest =>
      if Nat.ltb (snd p) (snd q) then q :: insert_by_count p rest
      else p :: q :: rest
  end.

(** [sorted(counts.items(), key=itemgetter(1), reverse=True)]: entries of
    equal count stay in the order of the dict. *)
Definition sorted_by_count (counts : list (cell * nat)) : list (cell * nat) :=
  fold_right insert_by_count [] counts.

(** [counts.most_common(k)] for an integer [k]: [heapq.nlargest(k, ...)],
    which is the first [k] entries of the sorted list, none for [k <= 0]. *)
Definition most_common (k : Z) (counts : list (cell * nat)) : list (cell * nat) :=
  take (Z.to_nat k) (sorted_by_count counts).

(** [[item for sub in series.dropna() if isinstance(sub, list) for item in sub]] *)
Definition list_items (xs : list cell) : list cell :=
  flat_map (fun sub => match sub with Seq l => l | _ => [] end)
           (List.filter (fun x => negb (checknull x)) xs).

(** The type pandas infers for a column of values: datetime64 when they are
    timestamps (missing ones apart), the plain kind otherwise. *)
Definition inferred_dtype (xs : list cell) : dtype :=
  if forallb (fun x => match x with Stamp _ | Absent => true | _ => false end) xs
     && existsb (fun x => match x with Stamp _ => true | _ => false end) xs
  then Datetime else Plain.

(** [pd.DataFrame(top, columns=["element", "frequency"])], whose index the
    code sets to 1, ..., [len(top)]: row [i] is entry [i] of [top]. *)
Definition frequency_frame (top : list (cell * nat)) : table :=
  Table (length top)
        [("element", Column (inferred_dtype (map fst top)) (map fst top));
         ("frequency",
          Column Plain (map (fun p => Num (inject_Z (Z.of_nat (snd p)))) top))].

(** Lines 121-140, without the two lines it prints. *)
Definition analyze_list_column (df : table) (col_name : string) (top_k : Z)
  : outcome table :=
  if negb (has_column df col_name)
  then Raise (KeyError (String.append "Colonne absente: " col_name))
  else
    s <- getitem df col_name ;;
    let all_items := list_items (cells s) in
    counter <- Counter all_items ;;
    let top := most_common top_k counter in
    Ok (frequency_frame top).

(** How many of [items] are equal to [x]. *)
Definition occurrences (x : cell) (items : list cell) : nat :=
  length (List.filter (same_key x) items).

(** A string, a number or a timestamp. *)
Definition plain_item (x : cell) : bool :=
  match x with
  | Str _ | Num _ | Stamp _ => true
  | _ => false
  end.

(** Counts that do not increase down the list. *)
Fixpoint descending (l : list (cell * nat)) : Prop :=
  match l with
  | [] => True
  | p :: rest => Forall (fun q => snd q <= snd p) rest /\ descending rest
  end.

(** What [Counter(items)] holds: a count for every item, the number of its
    occurrences, and no two keys for equal items. *)
Definition counted (counts : list (cell * nat)) (items : list cell) : Prop :=
  (forall y n, (y, n) ∈ counts -> y ∈ items /\ n = occurrences y items)
  /\ (forall x, x ∈ items -> exists y n, (y, n) ∈ counts /\ same_key y x = true)
  /\ (forall y, length (List.filter (fun p => same_key (fst p) y) counts) <= 1).

(** The position of the first of [items] that is equal to [x]. *)
Fixpoint first_index (x : cell) (items : list cell) : nat :=
  match items with
  | [] => 0
  | y :: rest => if same_key x y then 0 else S (first_index x rest)
  end.

(** Keys in the order of their first occurrence among [items]. *)
Fixpoint by_first_occurrence (items keys : list cell) : Prop :=
  match keys with
  | [] => True
  | k :: rest =>
      Forall (fun k' => first_index k items < first_index k' items) rest
      /\ by_first_occurrence items rest
  end.

(** [p] comes before [q] in a frequency table: it counts more, or as much
    and its element occurs first. *)
Definition outranks (items : list cell) (p q : cell * nat) : Prop :=
  snd q < snd p
  \/ (snd q = snd p /\ first_index (fst p) items < first_index (fst q) items).

Fixpoint ranked (items : list cell) (l : list (cell * nat)) : Prop :=
  match l with
  | [] => True
  | p :: rest => Forall (outranks items p) rest /\ ranked items rest
  end.

(** Three recipes with their tags, one of them without. *)
Definition recipes_tagged : table :=
  Table 3 [("tags", plain [Seq [Str "easy"; Str "quick"; Str "vegan"];
                           Absent;
                           Seq [Str "quick"; Str "vegan"; Str "quick"]])].

(** A column of tags that are still strings. *)
Definition recipes_unparsed_tags : table :=
  Table 2 [("tags", plain [Str "['easy', 'quick']"; Str "['quick']"])].

(** Two recipes whose tags occur equally often. *)
Definition recipes_tied_tags : table :=
  Table 2 [("tags", plain [Seq [Str "vegan"; Str "easy"];
                           Seq [Str "easy"; Str "vegan"]])].

(** ** The length of a description (src/feature_engineering.py)

    Strings are taken as their UTF-8 bytes.  [str.split()] cuts at the runs
    of whitespace, which is U+0009 to U+000D, U+001C to U+0020, U+0085,
    U+00A0, U+1680, U+2000 to U+200A, U+2028, U+2029, U+202F, U+205F and
    U+3000, and drops the empty pieces. *)

(** Whitespace of one byte. *)
Definition space1 (a : Ascii.ascii) : bool :=
  let n := Ascii.N_of_ascii a in
  (N.leb 9 n && N.leb n 13) || (N.leb 28 n && N.leb n 32).

(** Whitespace of two bytes: U+0085 (C2 85) and U+00A0 (C2 A0). *)
Definition space2 (a b : Ascii.ascii) : bool :=
  N.eqb (Ascii.N_of_ascii a) 194
  && (N.eqb (Ascii.N_of_ascii b) 133 || N.eqb (Ascii.N_of_ascii b) 160).

(** Whitespace of three bytes: U+1680 (E1 9A 80), U+2000 to U+200A
    (E2 80 80 to E2 80 8A), U+2028, U+2029, U+202F (E2 80 A8, A9, AF),
    U+205F (E2 81 9F) and U+3000 (E3 80 80). *)
Definition space3 (a b c : Ascii.ascii) : bool :=
  let x := Ascii.N_of_ascii a in
  let y := Ascii.N_of_ascii b in
  let z := Ascii.N_of_ascii c in
  (N.eqb x 225 && N.eqb y 154 && N.eqb z 128)
  || (N.eqb x 226 && N.eqb y 128
      && ((N.leb 128 z && N.leb z 138) || N.eqb z 168 || N.eqb z 169
          || N.eqb z 175))
  || (N.eqb x 226 && N.eqb y 129 && N.eqb z 159)
  || (N.eqb x 227 && N.eqb y 128 && N.eqb z 128).

(** The number of words from here on; [in_word] tells whether the byte
    before belongs to a word. *)
Fixpoint count_words (in_word : bool) (s : string) : nat :=
  match s with
  | EmptyString => 0
  | String a s1 =>
      if space1 a then count_words false s1
      else
        let word := (if in_word then 0 else 1) + count_words true s1 in
        match s1 with
        | String b s2 =>
            if space2 a b then count_words false s2
            else
              match s2 with
              | String c s3 =>
                  if space3 a b c then count_words false s3 else word
              | EmptyString => word
              end
        | EmptyString => word
        end
  end.

(** [len(s.split())] *)
Definition words (s : string) : nat := count_words false s.

(** What the development takes as given: the number of words of [str(x)]
    for a list or a dict [x], and [fillna] followed by [apply] for a column [s]
    that is datetime64 or category. *)
Record textlib := TextLib {
  words_of_container : cell -> nat;
  lengths_of_typed : column -> outcome column
}.

(** [len(str(x).split())]: a number prints without whitespace, a timestamp
    as a date and a time, a missing value as one word (None, nan, NaT). *)
Definition word_count (tl : textlib) (x : cell) : nat :=
  match x with
  | Str s => words s
  | Num _ => 1
  | Stamp _ => 2
  | Absent => 1
  | Seq _ | Dict _ => words_of_container tl x
  end.

(** A cell after [fillna] with the empty string. *)
Definition fill_blank (x : cell) : cell :=
  match x with
  | Absent => Str EmptyString
  | _ => x
  end.

(** [fillna] with the empty string, then [apply(lambda x: len(str(x).split()))]. *)
Definition description_lengths (tl : textlib) (s : column) : outcome column :=
  match col_dtype s with
  | Plain =>
      Ok (Column Plain
            (map (fun x => Num (inject_Z (Z.of_nat (word_count tl (fill_blank x)))))
                 (cells s)))
  | _ => lengths_of_typed tl s
  end.

Definition add_recipe_features (tl : textlib) (df : table) : outcome table :=
  let df := _copy df in
  s <- getitem df "description_filled" ;;
  lengths <- description_lengths tl s ;;
  Ok (setitem df "description_length" lengths).

(** The same over the store. *)
Definition add_recipe_features_st (tl : textlib) (df : ref) : prog ref :=
  (df <- _copy_st df ;;
   s <- getitem_st df "description_filled" ;;
   lengths <- lift (description_lengths tl s) ;;
   _ <- setitem_st df "description_length" lengths ;;
   ret df)%prog.

(** A text library for the examples. *)
Definition sample_textlib : textlib :=
  TextLib (fun _ => 1) (fun s => Ok s).

(** Three recipes with their descriptions, one of them missing. *)
Definition recipes_described : table :=
  Table 3 [("name", plain [Str "soup"; Str "cake"; Str "tea"]);
           ("description_filled",
            plain [Str "a quick  winter soup"; Absent; Str "   "])].

(** Recipes whose description column has its raw name. *)
Definition recipes_raw_description : table :=
  Table 1 [("description", plain [Str "a quick soup"])].

(** ** Tables as they are loaded *)

(** A cell that is no list: text, a number, a date, a dict or a missing value. *)
Definition scalar (x : cell) : Prop := unSeq x = None.


(** [pd.to_datetime] gives back the cells of a column of timestamps. *)
Definition keeps_datetimes (lib : pylib) : Prop :=
  forall ctx : list cell,
    Forall (fun x => x = Absent \/ exists t, x = Stamp t) ctx ->
    map (coerce_datetime lib ctx) ctx = ctx.

(** A table as a loaded frame: the same cells, none of them an array. *)
Definition loaded_of_table (df : table) : loaded_frame :=
  map (fun nc => (fst nc, map Value (cells (snd nc)))) (columns df).

(** One recipe whose tags come back from disk as an array. *)
Definition recipes_tag_array : loaded_frame :=
  [("tags", [NdArray [Str "easy"; Str "quick"]])].

(** * Properties *)

(** ** Outcomes and series *)

Lemma bind_Ok {A B} (m : outcome A) (k : A -> outcome B) (b : B) :
  bind m k = Ok b -> exists a, m = Ok a /\ k a = Ok b.
Proof. destruct m as [a|e]; simpl; [eauto | discriminate]. Qed.

Ltac bind_inv H :=
  let a := fresh "a" in
  let Ha := fresh "Ha" in
  apply bind_Ok in H; destruct H as (a & Ha & H).



(** ** Labels and columns *)

Lemma has_column_true df col : has_column df col = true <-> col ∈ names df.
Proof. unfold has_column. apply bool_decide_eq_true. Qed.

Lemma has_column_false df col : has_column df col = false <-> col ∉ names df.
Proof. unfold has_column. apply bool_decide_eq_false. Qed.

Lemma lookup_column_None col cs :
  lookup_column col cs = None <-> col ∉ map fst cs.
Proof.
  induction cs as [|[n c] cs IH]; simpl.
  - split; [intros _ H; inversion H | done].
  - destruct (String.eqb_spec n col) as [->|Hne].
    + split; [discriminate | intros H; exfalso; apply H; left].
    + rewrite IH, not_elem_of_cons. split; [by intros ? | by intros [_ ?]].
Qed.

Lemma lookup_column_Some col cs c :
  lookup_column col cs = Some c -> (col, c) ∈ cs.
Proof.
  induction cs as [|[n c0] cs IH]; simpl; [discriminate|].
  destruct (String.eqb_spec n col) as [->|Hne].
  - intros [= ->]. left.
  - intros H. right. by apply IH.
Qed.

Lemma getitem_present df col :
  has_column df col = true -> exists c, getitem df col = Ok c /\ (col, c) ∈ columns df.
Proof.
  intros H. apply has_column_true in H. unfold getitem.
  destruct (lookup_column col (columns df)) as [c|] eqn:E.
  - exists c. split; [done | by apply lookup_column_Some].
  - apply lookup_column_None in E. done.
Qed.

Lemma lookup_assign_eq col c cs : lookup_column col (assign col c cs) = Some c.
Proof.
  induction cs as [|[n c0] cs IH]; simpl.
  - by rewrite String.eqb_refl.
  - destruct (String.eqb_spec n col) as [->|Hne]; simpl.
    + by rewrite String.eqb_refl.
    + by destruct (String.eqb_spec n col).
Qed.

Lemma lookup_assign_ne col col' c cs :
  col <> col' -> lookup_column col' (assign col c cs) = lookup_column col' cs.
Proof.
  intros Hne. induction cs as [|[n c0] cs IH]; simpl.
  - by destruct (String.eqb_spec col col').
  - destruct (String.eqb_spec n col) as [->|Hn]; simpl.
    + by destruct (String.eqb_spec col col').
    + by rewrite IH.
Qed.

Lemma names_assign_present col c cs :
  col ∈ map fst cs -> map fst (assign col c cs) = map fst cs.
Proof.
  induction cs as [|[n c0] cs IH]; simpl; intros H.
  - inversion H.
  - destruct (String.eqb_spec n col) as [->|Hn]; simpl; [done|].
    f_equal. apply IH. apply elem_of_cons in H as [->|H]; done.
Qed.

Lemma names_assign_new col c cs :
  col ∉ map fst cs -> map fst (assign col c cs) = map fst cs ++ [col].
Proof.
  induction cs as [|[n c0] cs IH]; simpl; intros H; [done|].
  apply not_elem_of_cons in H as [Hne H].
  destruct (String.eqb_spec n col) as [->|Hn]; simpl; [done|].
  f_equal. by apply IH.
Qed.

Lemma names_setitem_present df col c :
  has_column df col = true -> names (setitem df col c) = names df.
Proof. intros H. apply has_column_true in H. by apply names_assign_present. Qed.

Lemma names_setitem df col c :
  names (setitem df col c) = names df
  \/ ((col ∉ names df) /\ names (setitem df col c) = names df ++ [col]).
Proof.
  destruct (decide (col ∈ names df)) as [H|H].
  - left. by apply names_assign_present.
  - right. split; [done | by apply names_assign_new].
Qed.




(** ** The helpers *)

Section Helpers.

Context (lib : pylib).

(** A list of two or more scalars: [pd.isna] gives an array of as many
    booleans, which has no truth value. *)
Lemma isna_truth_flat_list x y rest :
  unSeq x = None -> unSeq y = None ->
  isna_truth lib (Seq (x :: y :: rest)) = Raise AmbiguousTruth.
Proof.
  intros Hx Hy. unfold isna_truth, NPY_MAXDIMS.
  cbn [np_shape length forallb concat app all_seq].
  rewrite Nat.eqb_refl. cbn [andb]. rewrite Hx.
  cbn [fold_right Nat.mul Nat.add]. done.
Qed.

Lemma isna_truth_scalar x :
  unSeq x = None -> isna_truth lib x = Ok (checknull x).
Proof. by destruct x. Qed.

(** [_ensure_list_or_none] on everything that is not a list (docstring, lines
    69-72): a missing value and a value that is neither a list nor a string
    give [None]; a string gives what it evaluates to when that is a list. *)
Lemma _ensure_list_or_none_Absent : _ensure_list_or_none lib Absent = Ok Absent.
Proof. reflexivity. Qed.

Lemma _ensure_list_or_none_Str s :
  _ensure_list_or_none lib (Str s) =
  match literal_eval lib s with
  | Evaluated (Seq l) => Ok (Seq l)
  | Evaluated _ | Malformed => Ok Absent
  | Escapes => Raise LiteralEvalEscapes
  end.
Proof.
  unfold _ensure_list_or_none, _safe_literal_eval. simpl.
  destruct (literal_eval lib s) as [v| |]; simpl; try done. by destruct v.
Qed.

Lemma _ensure_list_or_none_other x :
  match x with Num _ | Stamp _ | Dict _ => True | _ => False end ->
  _ensure_list_or_none lib x = Ok Absent.
Proof. by destruct x. Qed.

(** Whatever it is given, the helper answers a list or [None], or raises. *)
Lemma _ensure_list_or_none_range x y :
  _ensure_list_or_none lib x = Ok y -> y = Absent \/ exists l, y = Seq l.
Proof.
  unfold _ensure_list_or_none. intros H. bind_inv H.
  destruct a; [inversion H; by left|].
  destruct x; try (bind_inv H; inversion H; subst;
                   destruct a; eauto; fail).
  inversion H; eauto.
Qed.

Lemma _pad_or_none_length x n : length (_pad_or_none x n) = n.
Proof.
  unfold _pad_or_none. destruct x; try apply length_replicate.
  destruct (Nat.eqb_spec (length items) n) as [|Hne]; [done|].
  destruct (Nat.ltb_spec (length items) n) as [Hlt|Hge].
  - rewrite length_app, length_replicate. lia.
  - rewrite length_take. lia.
Qed.

(** Entry [j] of the padded row: the entry [j] of the list when it has one,
    [None] otherwise, and [None] everywhere when the cell is no list. *)
Lemma _pad_or_none_nth x n j :
  j < n ->
  nth j (_pad_or_none x n) Absent =
  match x with
  | Seq l => nth j l Absent
  | _ => Absent
  end.
Proof.
  intros Hj. unfold _pad_or_none.
  assert (Hrep : forall k i, nth i (replicate k Absent) Absent = Absent).
  { induction k as [|k IH]; intros [|i]; simpl; auto. }
  destruct x; try apply Hrep.
  destruct (Nat.eqb_spec (length items) n) as [|Hne]; [done|].
  destruct (Nat.ltb_spec (length items) n) as [Hlt|Hge].
  - destruct (decide (j < length items)) as [Hin|Hout].
    + by rewrite app_nth1.
    + rewrite app_nth2 by lia. rewrite Hrep. symmetry. apply nth_overflow. lia.
  - revert j n Hj Hne Hge. induction items as [|a l IH]; intros j n Hj Hne Hge.
    + simpl in *. lia.
    + destruct n as [|n]; [lia|]. destruct j as [|j]; simpl; [done|].
      destruct (decide (length l = n)) as [<-|Hn].
      * by rewrite firstn_all.
      * apply IH; simpl in *; lia.
Qed.

End Helpers.

(** ** The stages, one by one *)

Section Stages.

Context (lib : pylib).

Lemma apply_series_Ok f s s' :
  apply_series f s = Ok s' ->
  col_dtype s' = Plain /\ apply f (cells s) = Ok (cells s').
Proof. unfold apply_series. intros H. bind_inv H. by inversion H. Qed.

(** *** The list parser *)

Lemma convert_list_like_loop_shape df cols out :
  convert_list_like_loop lib df cols = Ok out ->
  names out = names df /\ nrows out = nrows df.
Proof.
  revert df. induction cols as [|col cols IH]; intros df H; simpl in H.
  - by inversion H.
  - destruct (has_column df col) eqn:Hc; [|by apply IH].
    bind_inv H. bind_inv H. apply IH in H as [Hn Hr].
    rewrite Hn, Hr. split; [by apply names_setitem_present | done].
Qed.


Lemma convert_list_like_loop_skip df cols :
  (forall col, col ∈ cols -> col ∉ names df) ->
  convert_list_like_loop lib df cols = Ok df.
Proof.
  induction cols as [|col cols IH]; intros H; simpl; [done|].
  assert (Hc : has_column df col = false).
  { apply has_column_false, H. left. }
  rewrite Hc. apply IH. intros c Hin. apply H. by right.
Qed.

Lemma convert_list_like_loop_frame df cols out col :
  col ∉ cols -> convert_list_like_loop lib df cols = Ok out ->
  lookup_column col (columns out) = lookup_column col (columns df).
Proof.
  revert df. induction cols as [|c cols IH]; intros df Hnot H; simpl in H.
  - by inversion H.
  - apply not_elem_of_cons in Hnot as [Hne Hnot].
    destruct (has_column df c) eqn:Hc; [|by apply IH].
    bind_inv H. bind_inv H. rewrite (IH _ Hnot H). simpl.
    apply lookup_assign_ne. congruence.
Qed.

(** *** The nutrition splitter *)

(** The three ways out of [split_nutrition_columns]. *)
Lemma split_nutrition_columns_missing df col outs dropit :
  has_column df col = false ->
  split_nutrition_columns lib df col outs dropit = Ok df.
Proof. intros H. unfold split_nutrition_columns, _copy. by rewrite H. Qed.

Lemma split_nutrition_columns_present df col outs dropit :
  has_column df col = true ->
  split_nutrition_columns lib df col outs dropit =
  (s <- getitem df col ;;
   lists <- apply_series (_ensure_list_or_none lib) s ;;
   match List.filter (fun c => has_column df c) outs with
   | (_ :: _) as dupes => Raise (NameCollision dupes)
   | [] => Ok (split_result df col outs dropit lists)
   end).
Proof.
  intros H. unfold split_nutrition_columns, _copy. rewrite H. simpl.
  destruct (getitem df col) as [s|]; simpl; [|done].
  destruct (apply_series _ s) as [lists|]; simpl; [|done].
  unfold split_result.
  destruct (List.filter _ outs); [|done].
  by destruct (dropit && _).
Qed.

Lemma split_nutrition_columns_Ok df col outs dropit out :
  split_nutrition_columns lib df col outs dropit = Ok out ->
  (has_column df col = false /\ out = df)
  \/ exists s lists,
       has_column df col = true /\ (col, s) ∈ columns df
       /\ getitem df col = Ok s
       /\ apply_series (_ensure_list_or_none lib) s = Ok lists
       /\ List.filter (fun c => has_column df c) outs = []
       /\ out = split_result df col outs dropit lists.
Proof.
  destruct (has_column df col) eqn:Hc.
  - rewrite (split_nutrition_columns_present _ _ _ _ Hc). intros H.
    right. destruct (getitem_present _ _ Hc) as (s & Hg & Hin).
    rewrite Hg in H. simpl in H. bind_inv H.
    destruct (List.filter _ outs) eqn:Hf; [|discriminate].
    inversion H; subst. by exists s, a.
  - rewrite (split_nutrition_columns_missing _ _ _ _ Hc). intros [= <-]. by left.
Qed.

End Stages.

(** ** Frames built by the splitter *)

Lemma names_imap {A} (f : nat -> string -> string * A) (l : list string) :
  (forall j name, fst (f j name) = name) -> map fst (imap f l) = l.
Proof.
  revert f. induction l as [|x l IH]; intros f Hf; simpl; [done|].
  rewrite Hf. f_equal. apply IH. intros j name. apply Hf.
Qed.

Lemma names_frame_of_rows n outs rows : names (frame_of_rows n outs rows) = outs.
Proof. unfold names, frame_of_rows. simpl. by apply names_imap. Qed.







Lemma names_drop_column df col :
  names (drop_column df col) = List.filter (fun n => negb (String.eqb n col)) (names df).
Proof.
  unfold names, drop_column. simpl.
  induction (columns df) as [|[n c] cs IH]; simpl; [done|].
  destruct (String.eqb n col); simpl; by rewrite IH.
Qed.

Lemma names_split_result df col outs dropit lists name :
  name ∈ names (split_result df col outs dropit lists) ->
  name ∈ names df \/ name ∈ outs.
Proof.
  unfold split_result. intros H.
  assert (Hin : name ∈ names (concat_columns df
            (frame_of_rows (nrows df) outs
               (map (fun x => _pad_or_none x (length outs)) (cells lists))))).
  { destruct (dropit && _); [|done].
    rewrite names_drop_column in H. apply list_elem_of_In in H.
    apply filter_In in H as [H _]. by apply list_elem_of_In. }
  unfold names, concat_columns in Hin. simpl in Hin.
  rewrite map_app in Hin. apply elem_of_app in Hin as [Hin|Hin]; [by left|].
  right. by rewrite <- (names_frame_of_rows (nrows df) outs
    (map (fun x => _pad_or_none x (length outs)) (cells lists))).
Qed.

Lemma lookup_column_app col cs cs' :
  lookup_column col (cs ++ cs') =
  match lookup_column col cs with
  | Some c => Some c
  | None => lookup_column col cs'
  end.
Proof.
  induction cs as [|[n c] cs IH]; simpl; [done|].
  by destruct (String.eqb n col).
Qed.

Lemma lookup_column_filter col col' cs :
  col' <> col ->
  lookup_column col'
    (List.filter (fun nc => negb (String.eqb (fst nc) col)) cs)
  = lookup_column col' cs.
Proof.
  intros Hne. induction cs as [|[n c] cs IH]; simpl; [done|].
  destruct (String.eqb_spec n col) as [->|Hn]; simpl.
  - destruct (String.eqb_spec col col'); [congruence | done].
  - by rewrite IH.
Qed.

(** The splitter leaves every column alone that is neither an output column
    nor the source column it is told to drop. *)
Lemma lookup_split_result df col outs dropit lists name :
  name ∉ outs -> (dropit = true -> name <> col) ->
  lookup_column name (columns (split_result df col outs dropit lists))
  = lookup_column name (columns df).
Proof.
  intros Hout Hne. unfold split_result.
  set (nutri := frame_of_rows _ _ _).
  assert (Hcat : lookup_column name (columns (concat_columns df nutri))
                 = lookup_column name (columns df)).
  { unfold concat_columns. simpl. rewrite lookup_column_app.
    destruct (lookup_column name (columns df)); [done|].
    apply lookup_column_None. change (name ∉ names nutri). unfold nutri.
    by rewrite names_frame_of_rows. }
  destruct dropit; simpl; [|done].
  destruct (has_column _ col); [|done].
  unfold drop_column. simpl. rewrite lookup_column_filter by auto. apply Hcat.
Qed.

(** ** The temporal converter and the category caster *)

Ltac solve_elem := apply (bool_decide_unpack _); vm_compute; exact I.

Lemma not_elem_of_TEMPORAL_PARTS col :
  col ∉ TEMPORAL_PARTS ->
  col <> "year" /\ col <> "month" /\ col <> "day" /\ col <> "dayofweek".
Proof.
  unfold TEMPORAL_PARTS. rewrite !not_elem_of_cons. tauto.
Qed.

Section TemporalAndCategory.

Context (lib : pylib).


Lemma add_part_Ok src parts name part df out :
  add_part src parts name part df = Ok out ->
  ((name ∉ parts) /\ out = df)
  \/ exists s p, name ∈ parts /\ getitem df src = Ok s /\ dt part s = Ok p
                 /\ out = setitem df name p.
Proof.
  unfold add_part. destruct (bool_decide (name ∈ parts)) eqn:Hin.
  - apply bool_decide_eq_true in Hin. intros H. bind_inv H. bind_inv H.
    inversion H; subst. right. by exists a, a0.
  - apply bool_decide_eq_false in Hin. intros [= <-]. by left.
Qed.

Lemma getitem_Ok df col c : getitem df col = Ok c -> (col, c) ∈ columns df.
Proof.
  unfold getitem. destruct (lookup_column col (columns df)) eqn:E; [|discriminate].
  intros [= <-]. by apply lookup_column_Some.
Qed.


Lemma add_part_names src parts name part df out n :
  add_part src parts name part df = Ok out ->
  n ∈ names out -> n ∈ names df \/ n = name.
Proof.
  intros H Hn. apply add_part_Ok in H as [[_ ->]|(s & p & _ & _ & _ & ->)];
    [by left|].
  destruct (names_setitem df name p) as [E|[_ E]]; rewrite E in Hn; [by left|].
  apply elem_of_app in Hn as [Hn|Hn]; [by left|].
  apply list_elem_of_singleton in Hn. by right.
Qed.

Lemma add_part_frame src parts name part df out col :
  (name ∈ parts -> col <> name) -> add_part src parts name part df = Ok out ->
  lookup_column col (columns out) = lookup_column col (columns df).
Proof.
  intros Hne H. apply add_part_Ok in H as [[_ ->]|(s & p & Hin & _ & _ & ->)];
    [done|].
  simpl. apply lookup_assign_ne. intros ->. by apply Hne.
Qed.

Lemma not_requested add parts col name :
  name ∈ TEMPORAL_PARTS -> col ∉ requested_parts add parts ->
  add = true -> name ∈ parts -> col <> name.
Proof.
  intros Hname Hcol -> Hin ->. apply Hcol. unfold requested_parts.
  apply list_elem_of_In, filter_In. split; [by apply list_elem_of_In|].
  by apply bool_decide_eq_true.
Qed.

(** The steps of [convert_temporal_columns] when the column is there. *)
Lemma convert_temporal_columns_Ok df src add parts out :
  convert_temporal_columns lib df src add parts = Ok out ->
  (has_column df src = false /\ out = df)
  \/ exists s, has_column df src = true /\ getitem df src = Ok s
       /\ let df0 := setitem df src (to_datetime lib s) in
          (add = false /\ out = df0)
          \/ (add = true /\ exists df1 df2 df3,
                add_part src parts "year" ts_year df0 = Ok df1
                /\ add_part src parts "month" ts_month df1 = Ok df2
                /\ add_part src parts "day" ts_day df2 = Ok df3
                /\ add_part src parts "dayofweek" ts_dayofweek df3 = Ok out).
Proof.
  unfold convert_temporal_columns, _copy.
  destruct (has_column df src) eqn:Hc; [|intros [= <-]; by left].
  intros H. right. bind_inv H. exists a. split; [done|]. split; [done|].
  simpl. destruct add.
  - right. split; [done|]. bind_inv H. bind_inv H. bind_inv H. bind_inv H.
    inversion H; subst. by exists a0, a1, a2.
  - left. by inversion H.
Qed.

Lemma convert_temporal_columns_missing df src add parts :
  has_column df src = false ->
  convert_temporal_columns lib df src add parts = Ok df.
Proof. intros H. unfold convert_temporal_columns, _copy. by rewrite H. Qed.



Lemma convert_temporal_columns_names df src add parts out n :
  convert_temporal_columns lib df src add parts = Ok out ->
  n ∈ names out -> n ∈ names df \/ n ∈ TEMPORAL_PARTS.
Proof.
  intros H Hn.
  apply convert_temporal_columns_Ok in H as [[_ ->]|(s & Hc & Hg & H)]; [by left|].
  assert (H0 : names (setitem df src (to_datetime lib s)) = names df)
    by by apply names_setitem_present.
  simpl in H. destruct H as [[_ ->]|(_ & df1 & df2 & df3 & H1 & H2 & H3 & H4)].
  - left. by rewrite <- H0.
  - destruct (add_part_names _ _ _ _ _ _ _ H4 Hn) as [Hn3| ->]; [|right; solve_elem].
    destruct (add_part_names _ _ _ _ _ _ _ H3 Hn3) as [Hn2| ->]; [|right; solve_elem].
    destruct (add_part_names _ _ _ _ _ _ _ H2 Hn2) as [Hn1| ->]; [|right; solve_elem].
    destruct (add_part_names _ _ _ _ _ _ _ H1 Hn1) as [Hn0| ->]; [|right; solve_elem].
    left. by rewrite <- H0.
Qed.

Lemma convert_temporal_columns_frame df src add parts out col :
  col <> src -> col ∉ requested_parts add parts ->
  convert_temporal_columns lib df src add parts = Ok out ->
  lookup_column col (columns out) = lookup_column col (columns df).
Proof.
  intros Hsrc Hparts H.
  apply convert_temporal_columns_Ok in H as [[_ ->]|(s & Hc & Hg & H)]; [done|].
  assert (H0 : lookup_column col (columns (setitem df src (to_datetime lib s)))
               = lookup_column col (columns df)).
  { simpl. apply lookup_assign_ne. congruence. }
  simpl in H. destruct H as [[_ ->]|(-> & df1 & df2 & df3 & H1 & H2 & H3 & H4)];
    [done|].
  rewrite (add_part_frame _ _ _ _ _ _ col
             (not_requested _ _ _ "dayofweek" ltac:(solve_elem) Hparts eq_refl) H4).
  rewrite (add_part_frame _ _ _ _ _ _ col
             (not_requested _ _ _ "day" ltac:(solve_elem) Hparts eq_refl) H3).
  rewrite (add_part_frame _ _ _ _ _ _ col
             (not_requested _ _ _ "month" ltac:(solve_elem) Hparts eq_refl) H2).
  rewrite (add_part_frame _ _ _ _ _ _ col
             (not_requested _ _ _ "year" ltac:(solve_elem) Hparts eq_refl) H1).
  done.
Qed.

Lemma astype_category_Ok s c :
  astype_category s = Ok c ->
  forallb hashable (cells s) = true /\ c = Column Category (cells s).
Proof.
  unfold astype_category. destruct (forallb hashable (cells s)); intros H;
    by inversion H.
Qed.

Lemma convert_contributor_to_category_Ok df col out :
  convert_contributor_to_category df col = Ok out ->
  (has_column df col = false /\ out = df)
  \/ exists s, has_column df col = true /\ getitem df col = Ok s
       /\ forallb hashable (cells s) = true
       /\ out = setitem df col (Column Category (cells s)).
Proof.
  unfold convert_contributor_to_category, _copy.
  destruct (has_column df col) eqn:Hc; [|intros [= <-]; by left].
  intros H. right. bind_inv H. bind_inv H. inversion H; subst.
  apply astype_category_Ok in Ha0 as [Hh ->]. by exists a.
Qed.

Lemma convert_contributor_to_category_missing df col :
  has_column df col = false -> convert_contributor_to_category df col = Ok df.
Proof. intros H. unfold convert_contributor_to_category, _copy. by rewrite H. Qed.


Lemma convert_contributor_to_category_shape_names df col out :
  convert_contributor_to_category df col = Ok out -> names out = names df.
Proof.
  intros H. apply convert_contributor_to_category_Ok in H
    as [[_ ->]|(s & Hc & _ & _ & ->)]; [done|].
  by apply names_setitem_present.
Qed.

Lemma convert_contributor_to_category_frame df col out name :
  name <> col -> convert_contributor_to_category df col = Ok out ->
  lookup_column name (columns out) = lookup_column name (columns df).
Proof.
  intros Hne H.
  apply convert_contributor_to_category_Ok in H
    as [[_ ->]|(s & Hc & Hg & _ & ->)]; [done|].
  simpl. apply lookup_assign_ne. congruence.
Qed.

End TemporalAndCategory.

(** * Re-runs, cells that are lists, and missing columns *)

(** C1. The pipeline is not idempotent.  For a table with the nutrition
    column, one run appends the seven nutrition columns and keeps the source
    column (the default), and a second run on that output raises the name
    collision of [split_nutrition_columns], for every library behaviour. *)
Theorem pipeline_second_run_raises (lib : pylib) :
  convert_recipes_for_univariate lib recipes_missing_nutrition None
  = Ok recipes_converted_once
  /\ convert_recipes_for_univariate lib recipes_converted_once None
     = Raise (NameCollision NUTRITION_COLS).
Proof. split; reflexivity. Qed.

(** C2. [split_nutrition_columns] raises without any name collision: a
    source cell that is already a list of two entries makes the [if pd.isna(x)]
    of [_ensure_list_or_none] raise, and no output label is taken. *)
Theorem split_raises_without_collision (lib : pylib) :
  has_column recipes_short_list "nutrition" = true
  /\ List.filter (fun c => has_column recipes_short_list c) NUTRITION_COLS = []
  /\ split_nutrition_columns lib recipes_short_list "nutrition" NUTRITION_COLS false
     = Raise AmbiguousTruth.
Proof. repeat split; reflexivity. Qed.

(** C3. A source cell that is a list of exactly seven numbers is not split
    into its seven columns: [split_nutrition_columns] raises on it, with the
    source column kept or dropped. *)
Theorem split_raises_on_seven_numbers (lib : pylib) (drop_original : bool) :
  split_nutrition_columns lib recipes_nutrition_list "nutrition" NUTRITION_COLS
    drop_original
  = Raise AmbiguousTruth.
Proof. reflexivity. Qed.

(** C4. [convert_list_like_columns] does not leave a cell that is already a
    list unchanged: on a column of such cells it raises. *)
Theorem list_parser_raises_on_list_cell (lib : pylib) :
  convert_list_like_columns lib recipes_tag_list DEFAULT_LIST_LIKE_COLS
  = Raise AmbiguousTruth.
Proof. reflexivity. Qed.

(** C6. A stage whose configured source columns are all absent from the
    table returns the table as it is, and does not raise. *)
Theorem stage_without_source_is_identity (lib : pylib) (s : stage) (df : table) :
  (forall col, col ∈ source_columns s -> col ∉ names df) ->
  run_stage lib s df = Ok df.
Proof.
  intros H. destruct s as [cols|col outs dropit|col add parts|col]; simpl in *.
  - by apply convert_list_like_loop_skip.
  - apply split_nutrition_columns_missing, has_column_false, H. left.
  - apply convert_temporal_columns_missing, has_column_false, H. left.
  - apply convert_contributor_to_category_missing, has_column_false, H. left.
Qed.

Lemma sources_absent (s : stage) (df : table) :
  Forall (fun col => col ∉ names df) (source_columns s) ->
  forall col, col ∈ source_columns s -> col ∉ names df.
Proof. intros H col Hin. by apply (proj1 (Forall_forall _ _) H). Qed.

Lemma stage_without_source_is_identity_witness :
  run_stage sample_lib (ListParser DEFAULT_LIST_LIKE_COLS) recipes_calories_only
  = Ok recipes_calories_only
  /\ run_stage sample_lib (NutritionSplitter "nutrition" NUTRITION_COLS false)
       recipes_calories_only
     = Ok recipes_calories_only
  /\ run_stage sample_lib (TemporalConverter "submitted" true ["year"; "month"])
       recipes_calories_only
     = Ok recipes_calories_only
  /\ run_stage sample_lib (CategoryCaster "contributor_id") recipes_calories_only
     = Ok recipes_calories_only.
Proof.
  split; [|split; [|split]];
    apply stage_without_source_is_identity; apply sources_absent;
    apply (bool_decide_unpack _); vm_compute; exact I.
Defined.

(** C10. [split_nutrition_columns] looks for taken output labels only once
    the source column is found: on a table without the source column it
    returns the table unchanged, whatever labels the table has. *)
Theorem split_without_source_skips_collision_check (lib : pylib) (df : table)
    (nutrition_col : string) (output_cols : list string) (drop_original : bool) :
  nutrition_col ∉ names df ->
  split_nutrition_columns lib df nutrition_col output_cols drop_original = Ok df.
Proof. intros H. by apply split_nutrition_columns_missing, has_column_false. Qed.

Lemma split_without_source_skips_collision_check_witness :
  List.filter (fun c => has_column recipes_calories_only c) NUTRITION_COLS
  = ["calories"]
  /\ split_nutrition_columns sample_lib recipes_calories_only "nutrition"
       NUTRITION_COLS false
     = Ok recipes_calories_only.
Proof.
  split; [reflexivity|].
  apply split_without_source_skips_collision_check.
  apply (bool_decide_unpack _). vm_compute. exact I.
Defined.

(** ** The pipeline as a composition of its stages *)

Section Pipeline.

Context (lib : pylib).

Lemma split_nutrition_columns_names df col outs dropit out n :
  split_nutrition_columns lib df col outs dropit = Ok out ->
  n ∈ names out -> n ∈ names df \/ n ∈ outs.
Proof.
  intros H Hn. apply split_nutrition_columns_Ok in H
    as [[_ ->]|(s & lists & _ & _ & _ & _ & _ & ->)]; [by left|].
  by eapply names_split_result.
Qed.

Lemma split_nutrition_columns_frame df col outs dropit out name :
  name ∉ outs -> (dropit = true -> name <> col) ->
  split_nutrition_columns lib df col outs dropit = Ok out ->
  lookup_column name (columns out) = lookup_column name (columns df).
Proof.
  intros Hout Hne H. apply split_nutrition_columns_Ok in H
    as [[_ ->]|(s & lists & _ & _ & _ & _ & _ & ->)]; [done|].
  by apply lookup_split_result.
Qed.


(** The guard of the pipeline (line 241) repeats the one of the splitter. *)
Lemma pipeline_is_spec_pipeline cfg df :
  convert_recipes_for_univariate lib df (Some cfg)
  = spec_pipeline lib df (surface_of cfg).
Proof.
  unfold convert_recipes_for_univariate, spec_pipeline, _copy. simpl.
  destruct (convert_list_like_columns lib df (list_like_cols cfg)) as [df1|];
    simpl; [|done].
  destruct (has_column df1 (nutrition_col cfg)) eqn:Hc; [done|].
  by rewrite split_nutrition_columns_missing.
Qed.

Lemma pipeline_default_is_spec_pipeline df :
  convert_recipes_for_univariate lib df None = spec_pipeline lib df spec_defaults.
Proof.
  change (convert_recipes_for_univariate lib df (Some default_config)
          = spec_pipeline lib df (surface_of default_config)).
  apply pipeline_is_spec_pipeline.
Qed.

Lemma pipeline_Ok cfg df out :
  convert_recipes_for_univariate lib df (Some cfg) = Ok out ->
  exists df1 df2 df3,
    convert_list_like_columns lib df (list_like_cols cfg) = Ok df1
    /\ split_nutrition_columns lib df1 (nutrition_col cfg) NUTRITION_COLS
         (drop_original_nutrition cfg) = Ok df2
    /\ convert_temporal_columns lib df2 (temporal_col cfg)
         (add_temporal_parts cfg) (temporal_parts cfg) = Ok df3
    /\ convert_contributor_to_category df3 (contributor_col cfg) = Ok out.
Proof.
  rewrite pipeline_is_spec_pipeline. unfold spec_pipeline. simpl. intros H.
  bind_inv H. bind_inv H. bind_inv H. by exists a, a0, a1.
Qed.

Lemma pipeline_names cfg df out name :
  convert_recipes_for_univariate lib df (Some cfg) = Ok out ->
  name ∈ names out ->
  name ∈ names df \/ name ∈ NUTRITION_COLS \/ name ∈ TEMPORAL_PARTS.
Proof.
  intros H Hn. apply pipeline_Ok in H as (df1 & df2 & df3 & H1 & H2 & H3 & H4).
  apply convert_contributor_to_category_Ok in H4 as [[_ ->]|(s & Hc & _ & _ & ->)].
  2: rewrite (names_setitem_present _ _ _ Hc) in Hn.
  all: destruct (convert_temporal_columns_names _ _ _ _ _ _ _ H3 Hn) as [Hn2|?];
    [|by right; right].
  all: destruct (split_nutrition_columns_names _ _ _ _ _ _ H2 Hn2) as [Hn1|?];
    [|by right; left].
  all: apply convert_list_like_loop_shape in H1 as [E _]; rewrite E in Hn1;
    by left.
Qed.

Lemma pipeline_frame cfg df out name :
  convert_recipes_for_univariate lib df (Some cfg) = Ok out ->
  name ∉ written_columns cfg ->
  lookup_column name (columns out) = lookup_column name (columns df).
Proof.
  intros H Hn. apply pipeline_Ok in H as (df1 & df2 & df3 & H1 & H2 & H3 & H4).
  unfold written_columns in Hn. rewrite !not_elem_of_app in Hn.
  destruct Hn as (Hlist & Hdrop & Hnut & Htemp & Hparts & Hcat).
  assert (Hc : name <> contributor_col cfg).
  { intros E. apply Hcat. rewrite E. left. }
  assert (Ht : name <> temporal_col cfg).
  { intros E. apply Htemp. rewrite E. left. }
  assert (Hd : drop_original_nutrition cfg = true -> name <> nutrition_col cfg).
  { intros E E'. rewrite E in Hdrop. apply Hdrop. rewrite E'. left. }
  rewrite (convert_contributor_to_category_frame _ _ _ name Hc H4).
  rewrite (convert_temporal_columns_frame _ _ _ _ _ _ name Ht Hparts H3).
  rewrite (split_nutrition_columns_frame _ _ _ _ _ name Hnut Hd H2).
  apply (convert_list_like_loop_frame lib _ _ _ _ Hlist H1).
Qed.

End Pipeline.

(** C9, as stated, fails: the configuration record has no setting for the
    names of the nutrition columns.  No configuration makes the pipeline write
    the seven columns under the names of [renamed_surface]. *)
Lemma no_configuration_renames_nutrition_columns :
  ~ (forall s : PipelineConfig,
       exists cfg : RecipeConversionConfig,
         forall (lib : pylib) (df : table),
           convert_recipes_for_univariate lib df (Some cfg)
           = spec_pipeline lib df s).
Proof.
  intros H. destruct (H renamed_surface) as [cfg Hcfg].
  specialize (Hcfg sample_lib recipes_missing_nutrition).
  assert (Hspec : exists out,
             spec_pipeline sample_lib recipes_missing_nutrition renamed_surface
             = Ok out /\ "kcal" ∈ names out).
  { eexists. split; [reflexivity|]. solve_elem. }
  destruct Hspec as (out & Hout & Hk). rewrite Hout in Hcfg.
  destruct (pipeline_names _ _ _ _ _ Hcfg Hk) as [Hn|[Hn|Hn]];
    revert Hn; apply (bool_decide_unpack _); vm_compute; exact I.
Qed.

(** C9, amended.  The record settles every setting of the surface but the
    names of the nutrition columns, with the stated defaults, and the
    pipeline is the four stages run on the columns it names, the nutrition
    columns being [NUTRITION_COLS]: it assigns or drops no column outside
    [written_columns], and adds no label outside [NUTRITION_COLS] and the
    four temporal parts. *)
Theorem configuration_settles_the_columns :
  surface_of default_config = spec_defaults
  /\ (forall lib df,
        convert_recipes_for_univariate lib df None
        = spec_pipeline lib df spec_defaults)
  /\ (forall lib cfg df,
        convert_recipes_for_univariate lib df (Some cfg)
        = spec_pipeline lib df (surface_of cfg))
  /\ (forall lib cfg df out name,
        convert_recipes_for_univariate lib df (Some cfg) = Ok out ->
        name ∉ written_columns cfg ->
        lookup_column name (columns out) = lookup_column name (columns df))
  /\ (forall lib cfg df out name,
        convert_recipes_for_univariate lib df (Some cfg) = Ok out ->
        name ∈ names out ->
        name ∈ names df \/ name ∈ NUTRITION_COLS \/ name ∈ TEMPORAL_PARTS).
Proof.
  split; [reflexivity|]. split; [apply pipeline_default_is_spec_pipeline|].
  split; [apply pipeline_is_spec_pipeline|].
  split; [apply pipeline_frame | apply pipeline_names].
Qed.

Lemma configuration_settles_the_columns_witness :
  exists out,
    convert_recipes_for_univariate sample_lib recipes_named (Some default_config)
    = Ok out
    /\ lookup_column "name" (columns out)
       = lookup_column "name" (columns recipes_named).
Proof.
  eexists. split; [reflexivity|].
  apply (proj1 (proj2 (proj2 (proj2 configuration_settles_the_columns)))
           sample_lib default_config).
  - reflexivity.
  - apply (bool_decide_unpack _). vm_compute. exact I.
Defined.

(** ** The temporal converter on a source column that is no part column *)

Section TemporalParts.

Context (lib : pylib).

Lemma getitem_lookup df col c :
  getitem df col = Ok c <-> lookup_column col (columns df) = Some c.
Proof.
  unfold getitem. destruct (lookup_column col (columns df)); split; congruence.
Qed.

Lemma add_part_total src parts name part df ts :
  getitem df src = Ok ts -> col_dtype ts = Datetime -> name <> src ->
  exists out,
    add_part src parts name part df = Ok out
    /\ getitem out src = Ok ts
    /\ nrows out = nrows df
    /\ lookup_column name (columns out)
       = (if bool_decide (name ∈ parts)
          then Some (Column Plain (map (part_value part) (cells ts)))
          else lookup_column name (columns df))
    /\ forall n, n <> name ->
         lookup_column n (columns out) = lookup_column n (columns df).
Proof.
  intros Hg Hd Hne. unfold add_part. rewrite Hg. simpl. unfold dt. rewrite Hd.
  simpl. destruct (bool_decide (name ∈ parts)).
  - eexists. split; [done|]. repeat split.
    + apply getitem_lookup. simpl. rewrite lookup_assign_ne by done.
      by apply getitem_lookup.
    + simpl. apply lookup_assign_eq.
    + intros n Hn. simpl. by apply lookup_assign_ne.
  - by exists df.
Qed.

End TemporalParts.





(** ** Rows *)













(** ** Every stage works row by row *)

Section RowByRow.

Context (lib : pylib) (ctx : list cell).










End RowByRow.




(** ** The stages over the store *)

Lemma deref_Some st r df : st !! r = Some df -> deref st r = df.
Proof. unfold deref. by intros ->. Qed.

Lemma deref_middle st df rest : deref (st ++ df :: rest) (length st) = df.
Proof. apply deref_Some. by apply list_lookup_middle. Qed.

Lemma insert_last (st : store) (df df' : table) :
  <[length st := df']> (st ++ [df]) = st ++ [df'].
Proof.
  rewrite insert_app_r_alt by lia. by rewrite Nat.sub_diag.
Qed.

Lemma returns_seq (n : nat) (o : outcome table) (k : table -> outcome table)
    (m : prog ref) (km : ref -> prog ref) (st : store) :
  returns n o st (m st) ->
  (forall st1 r1 df1,
     n <= r1 -> st1 !! r1 = Some df1 -> returns n (k df1) st1 (km r1 st1)) ->
  returns n (bind o k) st (seq m km st).
Proof.
  unfold returns, seq. destruct (m st) as [res st1]. simpl.
  intros [[extra ->] Hres] Hk.
  destruct o as [df1|e], res as [r1|e']; simpl in *; try done.
  - destruct Hres as [Hle Hr1]. specialize (Hk _ _ _ Hle Hr1).
    destruct (km r1 (st ++ extra)) as [res2 st2]. simpl in *.
    destruct Hk as [[extra2 ->] Hres2]. split; [|done].
    exists (extra ++ extra2). by rewrite app_assoc.
  - subst. split; [by exists extra | done].
Qed.

Lemma returns_weaken (n m : nat) (o : outcome table) (st : store)
    (out : outcome ref * store) :
  n <= m -> returns m o st out -> returns n o st out.
Proof.
  unfold returns. intros Hle [Hext H]. split; [done|].
  destruct o, (fst out); try done. destruct H. split; [lia | done].
Qed.

Lemma returns_ret (n : nat) (st : store) (r : ref) (df : table) :
  n <= r -> st !! r = Some df -> returns n (Ok df) st (ret r st).
Proof.
  intros Hle Hr. unfold returns, ret. simpl. split; [|done].
  exists []. by rewrite app_nil_r.
Qed.

Lemma returns_copy (st : store) (r : ref) :
  returns (length st) (Ok (_copy (deref st r))) st (_copy_st r st).
Proof.
  unfold returns, _copy_st, seq, frame, new_frame, _copy. simpl. split.
  - by eexists.
  - split; [done|]. by apply list_lookup_middle.
Qed.

Section StoreLemmas.

Context (lib : pylib).

(** The loop of the list parser works on the last frame of the store. *)
Lemma convert_list_like_loop_st_last (st : store) (df : table) (cols : list string) :
  exists df',
    snd (convert_list_like_loop_st lib (length st) cols (st ++ [df])) = st ++ [df']
    /\ match convert_list_like_loop lib df cols with
       | Ok out =>
           fst (convert_list_like_loop_st lib (length st) cols (st ++ [df])) = Ok tt
           /\ df' = out
       | Raise e =>
           fst (convert_list_like_loop_st lib (length st) cols (st ++ [df]))
           = Raise e
       end.
Proof.
  revert df. induction cols as [|col cols IH]; intros df; simpl.
  - by exists df.
  - unfold seq, has_column_st, getitem_st, setitem_st, update_frame, frame, ret,
      lift. simpl. rewrite !deref_middle.
    destruct (has_column df col); [|apply IH].
    simpl. rewrite ?deref_middle.
    destruct (getitem df col) as [s|e]; simpl; [|by exists df].
    destruct (apply_series (_ensure_list_or_none lib) s) as [s'|e]; simpl;
      [|by exists df].
    rewrite ?deref_middle, insert_last. apply IH.
Qed.

Lemma returns_convert_list_like_columns (st : store) (r : ref) (cols : list string) :
  returns (length st) (convert_list_like_columns lib (deref st r) cols) st
    (convert_list_like_columns_st lib r cols st).
Proof.
  unfold convert_list_like_columns, convert_list_like_columns_st, _copy.
  unfold seq at 1. unfold _copy_st, seq at 1, frame, new_frame. simpl.
  unfold seq at 1.
  destruct (convert_list_like_loop_st_last st (deref st r) cols) as (df' & Hst & H).
  destruct (convert_list_like_loop_st lib (length st) cols (st ++ [deref st r]))
    as [res st']. simpl in *. subst st'. unfold returns.
  destruct (convert_list_like_loop lib (deref st r) cols) as [out|e].
  - destruct H as [-> ->]. unfold ret. simpl. split; [by eexists|].
    split; [done|]. by apply list_lookup_middle.
  - subst res. simpl. split; [by eexists | done].
Qed.

End StoreLemmas.

Lemma deref_copy st df rest : deref ((st ++ [df]) ++ rest) (length st) = df.
Proof. rewrite <- app_assoc. apply deref_middle. Qed.

Ltac store_done :=
  unfold returns; simpl; split;
  [ eexists; rewrite <- ?app_assoc; reflexivity
  | first [ done
          | split; [ rewrite ?length_app; simpl; lia
                   | by apply list_lookup_middle ] ] ].

Ltac store_simpl :=
  simpl; rewrite ?deref_middle, ?deref_copy, ?insert_last.

Section StoreStageLemmas.

Context (lib : pylib).

Lemma returns_split_nutrition_columns (st : store) (r : ref) (col : string)
    (outs : list string) (dropit : bool) :
  returns (length st) (split_nutrition_columns lib (deref st r) col outs dropit) st
    (split_nutrition_columns_st lib r col outs dropit st).
Proof.
  unfold split_nutrition_columns, split_nutrition_columns_st.
  unfold seq, _copy_st, has_column_st, getitem_st, frame, new_frame, ret, lift,
    throw, _copy.
  store_simpl. set (df := deref st r).
  destruct (has_column df col); store_simpl; [|store_done].
  destruct (getitem df col) as [s|e]; store_simpl; [|store_done].
  destruct (apply_series (_ensure_list_or_none lib) s) as [lists|e]; store_simpl;
    [|store_done].
  destruct (List.filter (fun c => has_column df c) outs); store_simpl;
    [|store_done].
  destruct (dropit && _); store_simpl; store_done.
Qed.

Lemma add_part_st_last (st : store) (df : table) (src : string)
    (parts : list string) (name : string) (part : timestamp -> Z) :
  add_part_st src parts name part (length st) (st ++ [df])
  = match add_part src parts name part df with
    | Ok df' => (Ok tt, st ++ [df'])
    | Raise e => (Raise e, st ++ [df])
    end.
Proof.
  unfold add_part_st, add_part, seq, getitem_st, setitem_st, update_frame, frame,
    ret, lift.
  destruct (bool_decide (name ∈ parts)); store_simpl; [|done].
  destruct (getitem df src) as [s|e]; store_simpl; [|done].
  destruct (dt part s) as [p|e]; store_simpl; done.
Qed.

Lemma returns_convert_temporal_columns (st : store) (r : ref) (src : string)
    (add : bool) (parts : list string) :
  returns (length st) (convert_temporal_columns lib (deref st r) src add parts) st
    (convert_temporal_columns_st lib r src add parts st).
Proof.
  unfold convert_temporal_columns, convert_temporal_columns_st.
  unfold seq at 1. unfold _copy_st, _copy. unfold seq at 1.
  unfold frame at 1, new_frame. simpl. set (df := deref st r).
  unfold seq at 1, has_column_st, seq at 1, frame at 1, ret at 1. store_simpl.
  destruct (has_column df src); [|unfold ret; store_done].
  unfold seq at 1, getitem_st, seq at 1, frame at 1, lift. store_simpl.
  destruct (getitem df src) as [s|e]; store_simpl; [|store_done].
  unfold seq at 1, setitem_st, update_frame. store_simpl.
  destruct add; [|unfold ret; store_done].
  unfold seq at 1. rewrite add_part_st_last.
  destruct (add_part src parts "year" ts_year _) as [df1|e]; store_simpl;
    [|store_done].
  unfold seq at 1. rewrite add_part_st_last.
  destruct (add_part src parts "month" ts_month _) as [df2|e]; store_simpl;
    [|store_done].
  unfold seq at 1. rewrite add_part_st_last.
  destruct (add_part src parts "day" ts_day _) as [df3|e]; store_simpl;
    [|store_done].
  unfold seq at 1. rewrite add_part_st_last.
  destruct (add_part src parts "dayofweek" ts_dayofweek _) as [df4|e]; store_simpl;
    [|store_done].
  unfold ret. store_done.
Qed.

Lemma returns_convert_contributor_to_category (st : store) (r : ref)
    (col : string) :
  returns (length st) (convert_contributor_to_category (deref st r) col) st
    (convert_contributor_to_category_st r col st).
Proof.
  unfold convert_contributor_to_category, convert_contributor_to_category_st.
  unfold seq, _copy_st, has_column_st, getitem_st, setitem_st, update_frame,
    frame, new_frame, ret, lift, _copy.
  store_simpl. set (df := deref st r).
  destruct (has_column df col); store_simpl; [|store_done].
  destruct (getitem df col) as [s|e]; store_simpl; [|store_done].
  destruct (astype_category s) as [c|e]; store_simpl; store_done.
Qed.

Lemma returns_run_stage (s : stage) (st : store) (r : ref) :
  returns (length st) (run_stage lib s (deref st r)) st (run_stage_st lib s r st).
Proof.
  destruct s; simpl.
  - apply returns_convert_list_like_columns.
  - apply returns_split_nutrition_columns.
  - apply returns_convert_temporal_columns.
  - apply returns_convert_contributor_to_category.
Qed.

End StoreStageLemmas.

Lemma returns_above (lib : pylib) (s : stage) (n : nat) (st : store) (r : ref)
    (df : table) :
  n <= length st -> st !! r = Some df ->
  returns n (run_stage lib s df) st (run_stage_st lib s r st).
Proof.
  intros Hle Hr. apply (returns_weaken _ (length st)); [done|].
  rewrite <- (deref_Some _ _ _ Hr). apply returns_run_stage.
Qed.

Lemma returns_grow (n : nat) (o : outcome table) (st extra : store)
    (out : outcome ref * store) :
  returns n o (st ++ extra) out -> returns n o st out.
Proof.
  unfold returns. intros [[extra' ->] H]. split; [|done].
  exists (extra ++ extra'). by rewrite app_assoc.
Qed.

Lemma returns_pipeline (lib : pylib) (cfg : RecipeConversionConfig)
    (st : store) (r : ref) :
  returns (length st)
    (convert_recipes_for_univariate lib (deref st r) (Some cfg)) st
    (convert_recipes_for_univariate_st lib r (Some cfg) st).
Proof.
  unfold convert_recipes_for_univariate, convert_recipes_for_univariate_st.
  cbv zeta. unfold seq at 1, _copy_st, seq at 1, frame at 1, new_frame, _copy.
  simpl. apply (returns_grow _ _ _ [deref st r]).
  apply returns_seq.
  { apply (returns_above lib (ListParser _));
      [rewrite length_app; lia | by apply list_lookup_middle]. }
  intros st2 r2 df2 L2 H2. pose proof (lookup_lt_Some _ _ _ H2) as B2.
  unfold seq at 1, has_column_st, seq at 1, frame, ret at 1. simpl.
  rewrite (deref_Some _ _ _ H2).
  apply returns_seq.
  { destruct (has_column df2 (nutrition_col cfg)).
    - apply (returns_above lib (NutritionSplitter _ _ _)); [lia | done].
    - by apply returns_ret. }
  intros st3 r3 df3 L3 H3. pose proof (lookup_lt_Some _ _ _ H3) as B3.
  apply returns_seq.
  { apply (returns_above lib (TemporalConverter _ _ _)); [lia | done]. }
  intros st4 r4 df4 L4 H4. pose proof (lookup_lt_Some _ _ _ H4) as B4.
  apply (returns_above lib (CategoryCaster _)); [lia | done].
Qed.

(** What [returns] says of the store, in the terms of the claim. *)
Lemma returns_leaves_alone (o : outcome table) (st : store)
    (out : outcome ref * store) :
  returns (length st) o st out ->
  leaves_alone st (snd out) /\ ends_as o st (fst out) (snd out).
Proof.
  unfold returns, leaves_alone, ends_as. intros [[extra ->] H]. split.
  - intros r df Hr. by apply lookup_app_l_Some.
  - destruct o, (fst out); try done. destruct H as [Hle H]. split; [|done].
    by apply lookup_ge_None.
Qed.

(** C7. No stage and no run of the pipeline changes a frame that was in the
    store when it was called, the input frame included: the call returns a
    reference that named nothing before and now names the frame the stage
    computes from its input, or it raises, with the frames that were there
    still in place. *)
Theorem stages_leave_their_input_alone (lib : pylib) (st : store) (df_in : ref) :
  (forall s : stage,
     let out := run_stage_st lib s df_in st in
     leaves_alone st (snd out)
     /\ ends_as (run_stage lib s (deref st df_in)) st (fst out) (snd out))
  /\ (forall config : option RecipeConversionConfig,
        let out := convert_recipes_for_univariate_st lib df_in config st in
        leaves_alone st (snd out)
        /\ ends_as (convert_recipes_for_univariate lib (deref st df_in) config) st
             (fst out) (snd out)).
Proof.
  split.
  - intros s out. apply returns_leaves_alone, returns_run_stage.
  - intros [cfg|] out; apply returns_leaves_alone.
    + apply returns_pipeline.
    + apply (returns_pipeline lib default_config).
Qed.

(** * More of what the code does *)

(** ** What the helpers and the splitter do with the cells they can coerce *)

(** [_pad_or_none] answers [n] entries: those of the list at their positions,
    [None] beyond its end, and [None] everywhere for a value that is no list. *)
Theorem _pad_or_none_entries (x : cell) (n j : nat) :
  length (_pad_or_none x n) = n
  /\ (j < n ->
      nth j (_pad_or_none x n) Absent
      = match x with
        | Seq l => nth j l Absent
        | _ => Absent
        end).
Proof.
  split; [apply _pad_or_none_length | apply _pad_or_none_nth].
Qed.

Lemma _pad_or_none_entries_witness :
  _pad_or_none (Seq [Num 1; Num 2; Num 3; Num 4; Num 5]) 7
  = [Num 1; Num 2; Num 3; Num 4; Num 5; Absent; Absent]
  /\ nth 6 (_pad_or_none (Seq [Num 1; Num 2; Num 3; Num 4; Num 5]) 7) Absent
     = Absent
  /\ _pad_or_none
       (Seq [Num 1; Num 2; Num 3; Num 4; Num 5; Num 6; Num 7; Num 8; Num 9]) 7
     = [Num 1; Num 2; Num 3; Num 4; Num 5; Num 6; Num 7].
Proof.
  split; [reflexivity|]. split; [|reflexivity].
  rewrite (proj2 (_pad_or_none_entries
                    (Seq [Num 1; Num 2; Num 3; Num 4; Num 5]) 7 6)); [reflexivity|].
  lia.
Defined.

(** [_ensure_list_or_none], by the kind of value: a missing value gives
    [None]; a string gives the list it evaluates to, [None] when it is
    malformed or evaluates to something else, and lets the other errors of
    [ast.literal_eval] through; a number, a timestamp or a dict gives [None];
    a list of two or more scalars raises. *)
Theorem _ensure_list_or_none_by_kind (lib : pylib) :
  _ensure_list_or_none lib Absent = Ok Absent
  /\ (forall s,
        _ensure_list_or_none lib (Str s)
        = match literal_eval lib s with
          | Evaluated (Seq l) => Ok (Seq l)
          | Evaluated _ | Malformed => Ok Absent
          | Escapes => Raise LiteralEvalEscapes
          end)
  /\ (forall q, _ensure_list_or_none lib (Num q) = Ok Absent)
  /\ (forall t, _ensure_list_or_none lib (Stamp t) = Ok Absent)
  /\ (forall d, _ensure_list_or_none lib (Dict d) = Ok Absent)
  /\ (forall x y rest,
        unSeq x = None -> unSeq y = None ->
        _ensure_list_or_none lib (Seq (x :: y :: rest)) = Raise AmbiguousTruth).
Proof.
  split; [reflexivity|]. split; [apply _ensure_list_or_none_Str|].
  split; [reflexivity|]. split; [reflexivity|]. split; [reflexivity|].
  intros x y rest Hx Hy. unfold _ensure_list_or_none.
  by rewrite isna_truth_flat_list.
Qed.

Lemma _ensure_list_or_none_by_kind_witness :
  _ensure_list_or_none sample_lib (Str "[1, 2, 3]") = Ok (Seq [Num 1; Num 2; Num 3])
  /\ _ensure_list_or_none sample_lib (Str "not-a-list") = Ok Absent
  /\ _ensure_list_or_none sample_lib (Seq [Num 1; Num 2; Num 3])
     = Raise AmbiguousTruth.
Proof.
  destruct (_ensure_list_or_none_by_kind sample_lib) as (_ & Hs & _ & _ & _ & Hl).
  split; [by rewrite Hs|]. split; [by rewrite Hs|]. by apply Hl.
Defined.




(** The collision of the splitter: with the source column present and its
    cells coercible, the splitter raises as soon as an output label is a
    label of the table, and the error carries exactly the output labels that
    are, in the order of the output labels. *)
Theorem split_collision_lists_taken_labels (lib : pylib) (df : table)
    (col : string) (outs : list string) (dropit : bool) (s lists : column)
    (taken : string) :
  getitem df col = Ok s ->
  apply_series (_ensure_list_or_none lib) s = Ok lists ->
  taken ∈ outs -> taken ∈ names df ->
  split_nutrition_columns lib df col outs dropit
  = Raise (NameCollision (List.filter (fun c => has_column df c) outs))
  /\ forall name,
       name ∈ List.filter (fun c => has_column df c) outs
       <-> name ∈ outs /\ name ∈ names df.
Proof.
  intros Hg Hap Hin Htaken.
  assert (Hc : has_column df col = true).
  { apply has_column_true. apply getitem_Ok in Hg.
    apply (list_elem_of_fmap_2 fst) in Hg. exact Hg. }
  assert (Hspec : forall name,
            name ∈ List.filter (fun c => has_column df c) outs
            <-> name ∈ outs /\ name ∈ names df).
  { intros name. rewrite list_elem_of_In, filter_In, <- list_elem_of_In.
    by rewrite has_column_true. }
  split; [|exact Hspec].
  rewrite split_nutrition_columns_present by done. rewrite Hg. simpl.
  rewrite Hap. simpl.
  destruct (List.filter (fun c => has_column df c) outs) as [|d ds] eqn:E; [|done].
  exfalso. assert (H : taken ∈ @nil string) by by apply Hspec. inversion H.
Qed.

Lemma split_collision_lists_taken_labels_witness :
  split_nutrition_columns sample_lib recipes_converted_once "nutrition"
    NUTRITION_COLS false
  = Raise (NameCollision NUTRITION_COLS).
Proof.
  apply (proj1 (split_collision_lists_taken_labels sample_lib
                  recipes_converted_once "nutrition" NUTRITION_COLS false
                  (plain [Absent]) (plain [Absent]) "calories"
                  eq_refl eq_refl ltac:(solve_elem) ltac:(solve_elem))).
Defined.

(** The list parser, column by column: a named column of the table holds,
    cell by cell, what [_ensure_list_or_none] gives; a column that is not
    named is as it was. *)
Theorem list_parser_converts_named_columns (lib : pylib) (df out : table)
    (cols : list string) (col : string) :
  NoDup cols ->
  convert_list_like_columns lib df cols = Ok out ->
  names out = names df
  /\ (col ∉ cols ->
      lookup_column col (columns out) = lookup_column col (columns df))
  /\ (forall s, col ∈ cols -> getitem df col = Ok s ->
        exists s', getitem out col = Ok s'
                   /\ apply_series (_ensure_list_or_none lib) s = Ok s').
Proof.
  unfold convert_list_like_columns, _copy. intros Hnd H.
  split; [by apply convert_list_like_loop_shape in H as [? _]|].
  split; [intros Hn; by apply (convert_list_like_loop_frame lib df cols)|].
  revert df H. induction Hnd as [|c cols Hc Hnd IH]; intros df H s Hin Hg.
  - inversion Hin.
  - simpl in H. destruct (decide (c = col)) as [->|Hne].
    + assert (Hhas : has_column df col = true).
      { apply has_column_true. apply getitem_Ok in Hg.
        apply (list_elem_of_fmap_2 fst) in Hg. exact Hg. }
      rewrite Hhas, Hg in H. simpl in H. bind_inv H. exists a. split; [|done].
      apply getitem_lookup.
      rewrite (convert_list_like_loop_frame lib _ _ _ _ Hc H). simpl.
      apply lookup_assign_eq.
    + apply elem_of_cons in Hin as [->|Hin]; [done|].
      destruct (has_column df c); [|by apply (IH df)].
      bind_inv H. bind_inv H. apply (IH _ H s Hin).
      apply getitem_lookup. simpl. rewrite lookup_assign_ne by done.
      by apply getitem_lookup.
Qed.

Lemma list_parser_converts_named_columns_witness :
  exists out,
    convert_list_like_columns sample_lib recipes_raw DEFAULT_LIST_LIKE_COLS = Ok out
    /\ names out = names recipes_raw
    /\ lookup_column "name" (columns out) = Some (plain [Str "soup"; Str "cake"])
    /\ exists s',
         getitem out "nutrition" = Ok s'
         /\ apply_series (_ensure_list_or_none sample_lib)
              (plain [Str "[1, 2, 3]"; Absent]) = Ok s'.
Proof.
  eexists. split; [reflexivity|].
  assert (Hnd : NoDup DEFAULT_LIST_LIKE_COLS).
  { apply (bool_decide_unpack _). vm_compute. exact I. }
  split; [|split].
  - exact (proj1 (list_parser_converts_named_columns sample_lib recipes_raw _
                    DEFAULT_LIST_LIKE_COLS "name" Hnd eq_refl)).
  - rewrite (proj1 (proj2 (list_parser_converts_named_columns sample_lib
                             recipes_raw _ DEFAULT_LIST_LIKE_COLS "name" Hnd
                             eq_refl))); [reflexivity|].
    apply (bool_decide_unpack _). vm_compute. exact I.
  - apply (proj2 (proj2 (list_parser_converts_named_columns sample_lib
                           recipes_raw _ DEFAULT_LIST_LIKE_COLS "nutrition" Hnd
                           eq_refl))); [solve_elem | reflexivity].
Defined.

(** ** Running the pipeline on its own output *)

Lemma names_setitem_mono df col c n : n ∈ names df -> n ∈ names (setitem df col c).
Proof.
  intros H. destruct (names_setitem df col c) as [E|[_ E]]; rewrite E; [done|].
  apply elem_of_app. by left.
Qed.

Lemma add_part_names_mono src parts name part df out n :
  add_part src parts name part df = Ok out -> n ∈ names df -> n ∈ names out.
Proof.
  intros H Hn. apply add_part_Ok in H as [[_ ->]|(s & p & _ & _ & _ & ->)];
    [done | by apply names_setitem_mono].
Qed.

Lemma convert_temporal_columns_names_mono lib df src add parts out n :
  convert_temporal_columns lib df src add parts = Ok out ->
  n ∈ names df -> n ∈ names out.
Proof.
  intros H Hn.
  apply convert_temporal_columns_Ok in H as [[_ ->]|(s & Hc & Hg & H)]; [done|].
  assert (H0 : n ∈ names (setitem df src (to_datetime lib s)))
    by by apply names_setitem_mono.
  simpl in H. destruct H as [[_ ->]|(_ & df1 & df2 & df3 & H1 & H2 & H3 & H4)];
    [done|].
  eapply add_part_names_mono; [exact H4|].
  eapply add_part_names_mono; [exact H3|].
  eapply add_part_names_mono; [exact H2|].
  eapply add_part_names_mono; [exact H1|]. done.
Qed.

Lemma names_split_result_kept df col outs lists :
  names (split_result df col outs false lists) = names df ++ outs.
Proof.
  unfold split_result. simpl. unfold names, concat_columns. simpl.
  rewrite map_app. f_equal. apply (names_frame_of_rows (nrows df)).
Qed.

(** With the source column kept (the default), a run of the pipeline that
    returns on a table with the nutrition column cannot be repeated: the
    second run, on the output of the first, raises. *)
Theorem pipeline_rerun_raises (lib : pylib) (cfg : RecipeConversionConfig)
    (df out : table) :
  drop_original_nutrition cfg = false ->
  nutrition_col cfg ∈ names df ->
  convert_recipes_for_univariate lib df (Some cfg) = Ok out ->
  exists e, convert_recipes_for_univariate lib out (Some cfg) = Raise e.
Proof.
  intros Hkeep Hnut H.
  apply pipeline_Ok in H as (df1 & df2 & df3 & H1 & H2 & H3 & H4).
  unfold convert_list_like_columns, _copy in H1.
  apply convert_list_like_loop_shape in H1 as [N1 _].
  rewrite Hkeep in H2.
  apply split_nutrition_columns_Ok in H2
    as [[Hc _]|(s & lists & _ & _ & _ & _ & _ & ->)].
  { apply has_column_false in Hc. rewrite N1 in Hc. done. }
  assert (Hin : forall n, n ∈ names df1 ++ NUTRITION_COLS -> n ∈ names out).
  { intros n Hn.
    rewrite <- (names_split_result_kept df1 (nutrition_col cfg) NUTRITION_COLS
                  lists) in Hn.
    apply (convert_temporal_columns_names_mono _ _ _ _ _ _ _ H3) in Hn.
    by apply convert_contributor_to_category_shape_names in H4 as ->. }
  rewrite pipeline_is_spec_pipeline. unfold spec_pipeline. simpl.
  unfold convert_list_like_columns, _copy.
  destruct (convert_list_like_loop lib out (list_like_cols cfg)) as [o1|e] eqn:E1;
    simpl; [|by eexists].
  apply convert_list_like_loop_shape in E1 as [M1 _].
  assert (Hc : has_column o1 (nutrition_col cfg) = true).
  { apply has_column_true. rewrite M1. apply Hin, elem_of_app. left.
    by rewrite N1. }
  rewrite split_nutrition_columns_present by done.
  remember (List.filter (fun c => has_column o1 c) NUTRITION_COLS) as dupes eqn:F.
  destruct (getitem o1 (nutrition_col cfg)) as [s1|e]; simpl; [|by eexists].
  destruct (apply_series (_ensure_list_or_none lib) s1) as [l1|e]; simpl;
    [|by eexists].
  destruct dupes as [|d ds]; simpl; [|by eexists].
  exfalso. assert (Hcal : In "calories" (@nil string)); [|done].
  rewrite F. apply filter_In. split; [by left|].
  apply has_column_true. rewrite M1. apply Hin, elem_of_app. right. solve_elem.
Qed.

Lemma pipeline_rerun_raises_witness :
  exists out,
    convert_recipes_for_univariate sample_lib recipes_named (Some default_config)
    = Ok out
    /\ exists e,
         convert_recipes_for_univariate sample_lib out (Some default_config)
         = Raise e.
Proof.
  eexists. split; [reflexivity|].
  apply (pipeline_rerun_raises sample_lib default_config recipes_named);
    [reflexivity | solve_elem | reflexivity].
Defined.

Lemma stages_leave_their_input_alone_witness :
  let out := split_nutrition_columns_st sample_lib 0 "nutrition" NUTRITION_COLS
               false [recipes_converted_once] in
  fst out = Raise (NameCollision NUTRITION_COLS)
  /\ snd out !! 0 = Some recipes_converted_once.
Proof.
  split; [reflexivity|].
  apply (proj1 (proj1 (stages_leave_their_input_alone sample_lib
                         [recipes_converted_once] 0)
                  (NutritionSplitter "nutrition" NUTRITION_COLS false))).
  reflexivity.
Defined.

(** * Cells that are lists, for any table *)

Lemma apply_Raise f xs e :
  apply f xs = Raise e -> exists x, x ∈ xs /\ f x = Raise e.
Proof.
  induction xs as [|y xs IH]; simpl; [discriminate|].
  destruct (f y) as [v|e0] eqn:Ey; simpl.
  - destruct (apply f xs) as [vs|e1]; simpl; [discriminate|].
    intros [= ->]. destruct IH as (x & Hx & Hf); [done|].
    exists x. split; [by right | done].
  - intros [= ->]. exists y. split; [left | done].
Qed.

Lemma apply_raises f xs x e :
  x ∈ xs -> f x = Raise e -> exists e', apply f xs = Raise e'.
Proof.
  induction xs as [|y xs IH]; intros Hin Hf; [inversion Hin|].
  simpl. apply elem_of_cons in Hin as [Heq|Hin].
  - subst y. rewrite Hf. simpl. eauto.
  - destruct (f y); simpl; [|eauto].
    destruct (IH Hin Hf) as [e' ->]. simpl. eauto.
Qed.

Lemma apply_elem_of f xs ys x y :
  apply f xs = Ok ys -> x ∈ xs -> f x = Ok y -> y ∈ ys.
Proof.
  revert ys. induction xs as [|z xs IH]; intros ys H Hin Hf; [inversion Hin|].
  simpl in H. bind_inv H. bind_inv H. inversion H; subst.
  apply elem_of_cons in Hin as [Heq|Hin].
  - subst z. rewrite Hf in Ha. inversion Ha; subst. left.
  - right. by apply IH.
Qed.

Lemma _ensure_list_or_none_Raise lib x e :
  _ensure_list_or_none lib x = Raise e -> coercion_error e.
Proof.
  intros H. unfold coercion_error.
  destruct x as [|s|q|t|l|d]; try discriminate H.
  - rewrite _ensure_list_or_none_Str in H.
    destruct (literal_eval lib s) as [[]| |]; try discriminate H.
    inversion H. by right.
  - unfold _ensure_list_or_none in H.
    destruct (isna_truth lib (Seq l)) as [b|e0] eqn:Eb; simpl in H.
    + destruct b; discriminate H.
    + inversion H; subst. unfold isna_truth in Eb.
      destruct (fold_right Nat.mul 1 (np_shape NPY_MAXDIMS [l])) as [|[|n]].
      * destruct (empty_truth_raises lib); inversion Eb. by left.
      * discriminate Eb.
      * inversion Eb. by left.
Qed.

Lemma apply_series_coercion_Raise lib s e :
  apply_series (_ensure_list_or_none lib) s = Raise e -> coercion_error e.
Proof.
  unfold apply_series.
  destruct (apply (_ensure_list_or_none lib) (cells s)) as [ys|e0] eqn:E; simpl;
    [discriminate|].
  intros [= <-]. apply apply_Raise in E as (x & _ & Hx).
  by eapply _ensure_list_or_none_Raise.
Qed.

Lemma apply_series_flat_list lib s x y rest :
  Seq (x :: y :: rest) ∈ cells s -> unSeq x = None -> unSeq y = None ->
  exists e, apply_series (_ensure_list_or_none lib) s = Raise e.
Proof.
  intros Hin Hx Hy. unfold apply_series.
  destruct (apply_raises (_ensure_list_or_none lib) (cells s) _ AmbiguousTruth Hin)
    as [e ->]; [|simpl; eauto].
  unfold _ensure_list_or_none. by rewrite isna_truth_flat_list.
Qed.

Lemma convert_list_like_loop_Raise lib df cols e :
  convert_list_like_loop lib df cols = Raise e -> coercion_error e.
Proof.
  revert df. induction cols as [|c cols IH]; intros df; simpl; [discriminate|].
  destruct (has_column df c) eqn:Hc; [|apply IH].
  destruct (getitem_present df c Hc) as (s & -> & _). simpl.
  destruct (apply_series (_ensure_list_or_none lib) s) as [s'|e0] eqn:E; simpl.
  - apply IH.
  - intros [= <-]. by eapply apply_series_coercion_Raise.
Qed.

Lemma getitem_has_column df col s : getitem df col = Ok s -> has_column df col = true.
Proof.
  intros Hg. apply has_column_true. apply getitem_Ok in Hg.
  apply (list_elem_of_fmap_2 fst) in Hg. exact Hg.
Qed.

Lemma getitem_setitem_ne df c col s s' :
  c <> col -> getitem df col = Ok s -> getitem (setitem df c s') col = Ok s.
Proof.
  intros Hne Hg. apply getitem_lookup. simpl. rewrite lookup_assign_ne by done.
  by apply getitem_lookup.
Qed.

Lemma convert_list_like_loop_flat_list lib df cols col s x y rest :
  col ∈ cols -> getitem df col = Ok s ->
  Seq (x :: y :: rest) ∈ cells s -> unSeq x = None -> unSeq y = None ->
  exists e, convert_list_like_loop lib df cols = Raise e.
Proof.
  intros Hin Hg Hc Hx Hy. revert df Hg.
  induction cols as [|c cols IH]; intros df Hg; [inversion Hin|].
  simpl. destruct (decide (c = col)) as [->|Hne].
  - rewrite (getitem_has_column _ _ _ Hg), Hg. simpl.
    destruct (apply_series_flat_list lib s x y rest Hc Hx Hy) as [e ->].
    simpl. eauto.
  - apply elem_of_cons in Hin as [->|Hin]; [done|].
    destruct (has_column df c) eqn:Hh; [|by apply IH].
    destruct (getitem df c) as [sc|e]; simpl; [|eauto].
    destruct (apply_series (_ensure_list_or_none lib) sc) as [sc'|e]; simpl;
      [|eauto].
    apply IH; [done|]. by apply getitem_setitem_ne.
Qed.

(** A named column with a cell that is a list of two or more scalars stops
    the list parser, and such a cell in the source column stops the splitter:
    neither returns, whatever else the table holds, and the exception comes
    out of the coercion of a cell (never the collision check). *)
Theorem list_cell_stops_parser_and_splitter (lib : pylib) (df : table)
    (col : string) (s : column) (x y : cell) (rest : list cell) :
  getitem df col = Ok s ->
  Seq (x :: y :: rest) ∈ cells s ->
  unSeq x = None -> unSeq y = None ->
  (forall cols, col ∈ cols ->
     exists e, convert_list_like_columns lib df cols = Raise e
               /\ (e = AmbiguousTruth \/ e = LiteralEvalEscapes))
  /\ (forall outs dropit,
        exists e, split_nutrition_columns lib df col outs dropit = Raise e
                  /\ (e = AmbiguousTruth \/ e = LiteralEvalEscapes)).
Proof.
  intros Hg Hc Hx Hy. split.
  - intros cols Hin. unfold convert_list_like_columns, _copy.
    destruct (convert_list_like_loop_flat_list lib df cols col s x y rest
                Hin Hg Hc Hx Hy) as [e He].
    exists e. split; [done|]. by eapply convert_list_like_loop_Raise.
  - intros outs dropit.
    rewrite split_nutrition_columns_present by by eapply getitem_has_column.
    rewrite Hg. simpl.
    destruct (apply_series_flat_list lib s x y rest Hc Hx Hy) as [e He].
    rewrite He. simpl. exists e. split; [done|].
    by eapply apply_series_coercion_Raise.
Qed.

Lemma list_cell_stops_parser_and_splitter_witness :
  (exists e, convert_list_like_columns sample_lib recipes_tag_list
               DEFAULT_LIST_LIKE_COLS = Raise e
             /\ (e = AmbiguousTruth \/ e = LiteralEvalEscapes))
  /\ (exists e, split_nutrition_columns sample_lib recipes_tag_list "tags"
                  NUTRITION_COLS false = Raise e
                /\ (e = AmbiguousTruth \/ e = LiteralEvalEscapes)).
Proof.
  destruct (list_cell_stops_parser_and_splitter sample_lib recipes_tag_list
              "tags" (plain [Seq [Str "easy"; Str "quick"]]) (Str "easy")
              (Str "quick") [] eq_refl ltac:(left) eq_refl eq_refl) as [P S].
  split; [apply P; solve_elem | apply S].
Defined.

(** ** The pipeline on nutrition strings *)

Lemma convert_list_like_loop_keeps_list lib df cols out col s x y rest :
  convert_list_like_loop lib df cols = Ok out ->
  getitem df col = Ok s ->
  Seq (x :: y :: rest) ∈ cells s -> unSeq x = None -> unSeq y = None ->
  getitem out col = Ok s.
Proof.
  intros H Hg Hc Hx Hy.
  destruct (decide (col ∈ cols)) as [Hin|Hout].
  - destruct (convert_list_like_loop_flat_list lib df cols col s x y rest
                Hin Hg Hc Hx Hy) as [e He]. congruence.
  - apply getitem_lookup.
    rewrite (convert_list_like_loop_frame lib _ _ _ _ Hout H).
    by apply getitem_lookup.
Qed.

Lemma convert_list_like_loop_parses lib df cols out col s str x y rest :
  convert_list_like_loop lib df cols = Ok out ->
  col ∈ cols -> getitem df col = Ok s -> Str str ∈ cells s ->
  literal_eval lib str = Evaluated (Seq (x :: y :: rest)) ->
  unSeq x = None -> unSeq y = None ->
  exists s', getitem out col = Ok s' /\ Seq (x :: y :: rest) ∈ cells s'.
Proof.
  intros H Hin Hg Hc Hev Hx Hy. revert df H Hg.
  induction cols as [|c cols IH]; intros df H Hg; [inversion Hin|].
  simpl in H. destruct (decide (c = col)) as [->|Hne].
  - rewrite (getitem_has_column _ _ _ Hg), Hg in H. simpl in H. bind_inv H.
    assert (Hl : Seq (x :: y :: rest) ∈ cells a).
    { apply apply_series_Ok in Ha as [_ Ha].
      apply (apply_elem_of _ _ _ _ _ Ha Hc).
      rewrite _ensure_list_or_none_Str. by rewrite Hev. }
    exists a. split; [|done].
    apply (convert_list_like_loop_keeps_list lib _ _ _ _ _ x y rest H);
      [|done..].
    apply getitem_lookup. simpl. apply lookup_assign_eq.
  - apply elem_of_cons in Hin as [->|Hin]; [done|].
    destruct (has_column df c) eqn:Hh; [|by apply (IH Hin df)].
    bind_inv H. bind_inv H. apply (IH Hin _ H). by apply getitem_setitem_ne.
Qed.

(** A table whose nutrition column holds a string that evaluates to a list of
    two or more scalars (every nutrition vector of the data set does) stops
    the pipeline when the nutrition column is among the list-like columns, as
    it is by default: the list parser turns the string into a list, and the
    splitter coerces the column once more. *)
Theorem pipeline_raises_on_nutrition_strings (lib : pylib)
    (config : option RecipeConversionConfig) (df : table) (s : column)
    (str : string) (x y : cell) (rest : list cell) :
  let cfg := match config with Some c => c | None => default_config end in
  nutrition_col cfg ∈ list_like_cols cfg ->
  getitem df (nutrition_col cfg) = Ok s ->
  Str str ∈ cells s ->
  literal_eval lib str = Evaluated (Seq (x :: y :: rest)) ->
  unSeq x = None -> unSeq y = None ->
  exists e, convert_recipes_for_univariate lib df config = Raise e
            /\ (e = AmbiguousTruth \/ e = LiteralEvalEscapes).
Proof.
  intros cfg Hin Hg Hc Hev Hx Hy.
  unfold convert_recipes_for_univariate. fold cfg.
  unfold convert_list_like_columns, _copy.
  destruct (convert_list_like_loop lib df (list_like_cols cfg)) as [df1|e] eqn:E1;
    simpl.
  - destruct (convert_list_like_loop_parses lib _ _ _ _ _ _ x y rest E1 Hin Hg Hc
                Hev Hx Hy) as (s' & Hg' & Hl).
    rewrite (getitem_has_column _ _ _ Hg').
    rewrite split_nutrition_columns_present by by eapply getitem_has_column.
    rewrite Hg'. simpl.
    destruct (apply_series_flat_list lib s' x y rest Hl Hx Hy) as [e He].
    rewrite He. simpl. exists e. split; [done|].
    by eapply apply_series_coercion_Raise.
  - exists e. split; [done|]. by eapply convert_list_like_loop_Raise.
Qed.

Lemma pipeline_raises_on_nutrition_strings_witness :
  exists e, convert_recipes_for_univariate sample_lib recipes_raw None = Raise e
            /\ (e = AmbiguousTruth \/ e = LiteralEvalEscapes).
Proof.
  apply (pipeline_raises_on_nutrition_strings sample_lib None recipes_raw
           (plain [Str "[1, 2, 3]"; Absent]) "[1, 2, 3]" (Num 1) (Num 2) [Num 3]);
    [solve_elem | reflexivity | left | reflexivity | reflexivity | reflexivity].
Defined.

(** ** The columns of the pipeline, in order *)

Lemma add_part_names_eq src parts name part df out :
  add_part src parts name part df = Ok out ->
  names out
  = names df ++ (if bool_decide (name ∈ parts) && negb (has_column df name)
                 then [name] else []).
Proof.
  intros H. apply add_part_Ok in H as [[Hn ->]|(s & p & Hn & _ & _ & ->)].
  - rewrite bool_decide_eq_false_2 by done. simpl. by rewrite app_nil_r.
  - rewrite bool_decide_eq_true_2 by done. simpl.
    destruct (has_column df name) eqn:E; simpl.
    + rewrite app_nil_r. by apply names_setitem_present.
    + apply names_assign_new. by apply has_column_false.
Qed.

Lemma has_column_names_app d d' l n :
  names d' = names d ++ l -> n ∉ l -> has_column d' n = has_column d n.
Proof.
  intros E Hn. unfold has_column. rewrite E. apply bool_decide_ext.
  rewrite elem_of_app. tauto.
Qed.

Lemma convert_temporal_columns_names_eq lib df src add parts out :
  convert_temporal_columns lib df src add parts = Ok out ->
  names out
  = names df ++ (if has_column df src
                 then List.filter (fun p => negb (has_column df p))
                        (requested_parts add parts)
                 else []).
Proof.
  intros H.
  apply convert_temporal_columns_Ok in H as [[Hc ->]|(s & Hc & Hg & H)].
  { rewrite Hc. by rewrite app_nil_r. }
  rewrite Hc. simpl in H.
  assert (N0 : names (setitem df src (to_datetime lib s)) = names df)
    by by apply names_setitem_present.
  destruct H as [[-> ->]|(-> & df1 & df2 & df3 & H1 & H2 & H3 & H4)].
  { simpl. by rewrite app_nil_r. }
  apply add_part_names_eq in H1, H2, H3, H4.
  set (df0 := setitem df src (to_datetime lib s)) in *.
  assert (C1 : has_column df0 "year" = has_column df "year")
    by (unfold has_column; by rewrite N0).
  rewrite C1, N0 in H1.
  assert (C2 : has_column df1 "month" = has_column df "month").
  { apply (has_column_names_app _ _ _ _ H1). destruct (_ && _); solve_elem. }
  rewrite C2, H1 in H2. rewrite <- app_assoc in H2.
  assert (C3 : has_column df2 "day" = has_column df "day").
  { apply (has_column_names_app _ _ _ _ H2).
    destruct (_ && _); destruct (_ && _); solve_elem. }
  rewrite C3, H2 in H3. rewrite <- app_assoc in H3.
  assert (C4 : has_column df3 "dayofweek" = has_column df "dayofweek").
  { apply (has_column_names_app _ _ _ _ H3).
    destruct (_ && _); destruct (_ && _); destruct (_ && _); solve_elem. }
  rewrite C4, H3 in H4. rewrite <- app_assoc in H4.
  rewrite H4. f_equal. unfold requested_parts, TEMPORAL_PARTS. cbn [List.filter].
  destruct (bool_decide ("year" ∈ parts)), (bool_decide ("month" ∈ parts)),
    (bool_decide ("day" ∈ parts)), (bool_decide ("dayofweek" ∈ parts));
    cbn [List.filter andb];
    destruct (has_column df "year"), (has_column df "month"),
      (has_column df "day"), (has_column df "dayofweek"); reflexivity.
Qed.

Lemma filter_has_column_nil df outs name :
  List.filter (fun c => has_column df c) outs = [] ->
  name ∈ outs -> name ∉ names df.
Proof.
  intros F Hin Hn.
  assert (H : In name (List.filter (fun c => has_column df c) outs)).
  { apply filter_In. split; [by apply list_elem_of_In | by apply has_column_true]. }
  by rewrite F in H.
Qed.

Lemma names_split_result_eq df col outs dropit lists :
  has_column df col = true ->
  List.filter (fun c => has_column df c) outs = [] ->
  names (split_result df col outs dropit lists)
  = (if dropit then List.filter (fun n => negb (String.eqb n col)) (names df)
     else names df) ++ outs.
Proof.
  intros Hc F.
  assert (Hcol : col ∉ outs).
  { intros Hin. apply (filter_has_column_nil _ _ _ F Hin). by apply has_column_true. }
  set (padded := map (fun x => _pad_or_none x (length outs)) (cells lists)).
  assert (Hnames : names (concat_columns df (frame_of_rows (nrows df) outs padded))
                   = names df ++ outs).
  { unfold names, concat_columns. simpl. rewrite map_app. f_equal.
    apply (names_frame_of_rows (nrows df) outs padded). }
  unfold split_result. fold padded.
  assert (Hhas : has_column
                   (concat_columns df (frame_of_rows (nrows df) outs padded))
                   col = true).
  { apply has_column_true. rewrite Hnames. apply elem_of_app. left.
    by apply has_column_true. }
  rewrite Hhas, andb_true_r. destruct dropit; [|done].
  rewrite names_drop_column, Hnames, List.filter_app. f_equal.
  clear -Hcol. induction outs as [|o outs IH]; simpl; [done|].
  apply not_elem_of_cons in Hcol as [Hne Hcol].
  destruct (String.eqb_spec o col); [congruence|]. simpl. f_equal. by apply IH.
Qed.

(** The labels of the table the pipeline returns, in order: those of the
    input (without the nutrition column when it is dropped), then the seven
    nutrition columns when the input has the nutrition column, then, when the
    temporal column is among these, the requested parts that are not yet a
    label, in the order year, month, day, dayofweek. *)
Theorem pipeline_column_order (lib : pylib)
    (config : option RecipeConversionConfig) (df out : table) :
  let cfg := match config with Some c => c | None => default_config end in
  convert_recipes_for_univariate lib df config = Ok out ->
  let split :=
    if has_column df (nutrition_col cfg)
    then (if drop_original_nutrition cfg
          then List.filter (fun n => negb (String.eqb n (nutrition_col cfg)))
                 (names df)
          else names df) ++ NUTRITION_COLS
    else names df in
  names out
  = split ++ (if bool_decide (temporal_col cfg ∈ split)
              then List.filter (fun p => negb (bool_decide (p ∈ split)))
                     (requested_parts (add_temporal_parts cfg)
                        (temporal_parts cfg))
              else []).
Proof.
  intros cfg H.
  assert (H' : convert_recipes_for_univariate lib df (Some cfg) = Ok out)
    by (by destruct config).
  clear H. apply pipeline_Ok in H' as (df1 & df2 & df3 & H1 & H2 & H3 & H4).
  unfold convert_list_like_columns, _copy in H1.
  apply convert_list_like_loop_shape in H1 as [N1 _].
  assert (Hh : forall c, has_column df1 c = has_column df c)
    by (intros c; unfold has_column; by rewrite N1).
  intros split.
  assert (N2 : names df2 = split).
  { unfold split.
    apply split_nutrition_columns_Ok in H2
      as [[Hc ->]|(s & lists & Hc & _ & _ & _ & F & ->)].
    - rewrite <- Hh, Hc. done.
    - rewrite <- Hh, Hc, <- N1. by apply names_split_result_eq. }
  apply convert_temporal_columns_names_eq in H3.
  apply convert_contributor_to_category_shape_names in H4.
  rewrite H4, H3. unfold has_column. rewrite N2. done.
Qed.

Lemma pipeline_column_order_witness :
  exists out,
    convert_recipes_for_univariate sample_lib recipes_named None = Ok out
    /\ names out
       = ["name"; "nutrition"; "submitted"; "calories"; "total_fat"; "sugar";
          "sodium"; "protein"; "saturated_fat"; "carbohydrates"; "year"; "month"].
Proof.
  eexists. split; [reflexivity|].
  exact (pipeline_column_order sample_lib None recipes_named _ eq_refl).
Defined.

(** * The loader's coercion of list columns (src/data_loader.py) *)

Lemma _to_list_or_none_range lib x y :
  _to_list_or_none lib x = Ok y -> normalized (Value y).
Proof.
  unfold normalized. destruct x as [[|s|q|t|l|d]|items]; simpl;
    try (intros [= <-]; eauto; fail).
  destruct (literal_eval lib s) as [[]| |]; intros [= <-]; eauto.
Qed.

Lemma _to_list_or_none_normalized lib x :
  normalized x -> _to_list_or_none lib x = Ok match x with
                                              | Value y => y
                                              | NdArray l => Seq l
                                              end.
Proof. intros [->|[l ->]]; reflexivity. Qed.






(** ** Whole frames *)

Lemma lookup_assign_loaded_eq col s df :
  lookup_loaded col (assign_loaded col s df) = Some s.
Proof.
  induction df as [|[n s0] df IH]; simpl.
  - by rewrite String.eqb_refl.
  - destruct (String.eqb_spec n col) as [->|Hne]; simpl.
    + by rewrite String.eqb_refl.
    + by destruct (String.eqb_spec n col).
Qed.

Lemma lookup_assign_loaded_ne col col' s df :
  col <> col' ->
  lookup_loaded col' (assign_loaded col s df) = lookup_loaded col' df.
Proof.
  intros Hne. induction df as [|[n s0] df IH]; simpl.
  - by destruct (String.eqb_spec col col').
  - destruct (String.eqb_spec n col) as [->|Hn]; simpl.
    + by destruct (String.eqb_spec col col').
    + by rewrite IH.
Qed.

Lemma assign_loaded_same col s df :
  lookup_loaded col df = Some s -> assign_loaded col s df = df.
Proof.
  induction df as [|[n s0] df IH]; simpl; [discriminate|].
  destruct (String.eqb_spec n col) as [->|Hn].
  - by intros [= ->].
  - intros H. by rewrite IH.
Qed.

Lemma names_assign_loaded col s s0 df :
  lookup_loaded col df = Some s0 ->
  map fst (assign_loaded col s df) = map fst df.
Proof.
  induction df as [|[n s1] df IH]; simpl; [discriminate|].
  destruct (String.eqb_spec n col) as [->|Hn]; [done|].
  intros H. simpl. f_equal. by apply IH.
Qed.

Lemma apply_loaded_Ok lib xs ys :
  apply_loaded (_to_list_or_none lib) xs = Ok ys ->
  length ys = length xs /\ Forall normalized ys.
Proof.
  revert ys. induction xs as [|x xs IH]; intros ys H; simpl in H.
  - inversion H. by split.
  - bind_inv H. bind_inv H. inversion H; subst.
    destruct (IH _ Ha0) as [Hl Hn]. split; [simpl; by f_equal|].
    constructor; [by eapply _to_list_or_none_range | done].
Qed.

Lemma apply_loaded_normalized lib xs :
  Forall normalized xs -> apply_loaded (_to_list_or_none lib) xs = Ok xs.
Proof.
  induction 1 as [|x xs Hx _ IH]; [done|]. simpl.
  rewrite (_to_list_or_none_normalized lib x Hx). simpl. rewrite IH. simpl.
  by destruct Hx as [->|[l ->]].
Qed.


Lemma _normalize_list_columns_loop_names lib df cols out :
  _normalize_list_columns_loop lib df cols = Ok out -> map fst out = map fst df.
Proof.
  revert df. induction cols as [|c cols IH]; intros df H; simpl in H.
  - by inversion H.
  - destruct (lookup_loaded c df) as [s|] eqn:E; [|by apply IH].
    bind_inv H. rewrite (IH _ H). by eapply names_assign_loaded.
Qed.

Lemma _normalize_list_columns_loop_frame lib df cols out col :
  col ∉ cols -> _normalize_list_columns_loop lib df cols = Ok out ->
  lookup_loaded col out = lookup_loaded col df.
Proof.
  revert df. induction cols as [|c cols IH]; intros df Hn H; simpl in H.
  - by inversion H.
  - apply not_elem_of_cons in Hn as [Hne Hn].
    destruct (lookup_loaded c df) as [s|] eqn:E; [|by apply IH].
    bind_inv H. rewrite (IH _ Hn H). by apply lookup_assign_loaded_ne.
Qed.

Lemma _normalize_list_columns_loop_column lib df cols out col s :
  _normalize_list_columns_loop lib df cols = Ok out ->
  col ∈ cols -> lookup_loaded col df = Some s ->
  exists s', lookup_loaded col out = Some s'
             /\ apply_loaded (_to_list_or_none lib) s = Ok s'.
Proof.
  revert df s. induction cols as [|c cols IH]; intros df s H Hin Hs;
    [inversion Hin|].
  simpl in H. destruct (decide (c = col)) as [->|Hne].
  - rewrite Hs in H. simpl in H. bind_inv H. exists a. split; [|done].
    destruct (decide (col ∈ cols)) as [Hin'|Hout].
    + destruct (IH _ a H Hin' (lookup_assign_loaded_eq _ _ _)) as (s' & Hl & Hap).
      rewrite apply_loaded_normalized in Hap
        by by apply apply_loaded_Ok in Ha as [_ ?].
      by inversion Hap; subst.
    + rewrite (_normalize_list_columns_loop_frame lib _ _ _ _ Hout H).
      apply lookup_assign_loaded_eq.
  - apply elem_of_cons in Hin as [->|Hin]; [done|].
    destruct (lookup_loaded c df) as [sc|] eqn:E; [|by apply (IH df)].
    bind_inv H. apply (IH _ s H Hin). by rewrite lookup_assign_loaded_ne.
Qed.

Lemma _normalize_list_columns_loop_fixed lib df cols :
  (forall c s, c ∈ cols -> lookup_loaded c df = Some s -> Forall normalized s) ->
  _normalize_list_columns_loop lib df cols = Ok df.
Proof.
  induction cols as [|c cols IH]; intros H; simpl; [done|].
  destruct (lookup_loaded c df) as [s|] eqn:E.
  - rewrite apply_loaded_normalized by (apply (H c); [left | done]). simpl.
    rewrite (assign_loaded_same _ _ _ E). apply IH.
    intros c' s' Hin. apply H. by right.
  - apply IH. intros c' s' Hin. apply H. by right.
Qed.


(** [_normalize_list_columns] is idempotent, as its docstring says: when it
    returns, the frame has the labels of the input in their order, every
    column that is not named is as it was, every named column holds the
    coerced cells of the input column, each a list or [None], and the
    function applied to the result returns the result. *)
Theorem _normalize_list_columns_idempotent (lib : pylib) (df out : loaded_frame)
    (list_cols : list string) :
  _normalize_list_columns lib df list_cols = Ok out ->
  map fst out = map fst df
  /\ (forall c, c ∉ list_cols -> lookup_loaded c out = lookup_loaded c df)
  /\ (forall c s, c ∈ list_cols -> lookup_loaded c df = Some s ->
        exists s', lookup_loaded c out = Some s'
                   /\ apply_loaded (_to_list_or_none lib) s = Ok s'
                   /\ length s' = length s
                   /\ Forall normalized s')
  /\ _normalize_list_columns lib out list_cols = Ok out.
Proof.
  unfold _normalize_list_columns. intros H.
  assert (Hcol : forall c s, c ∈ list_cols -> lookup_loaded c df = Some s ->
            exists s', lookup_loaded c out = Some s'
                       /\ apply_loaded (_to_list_or_none lib) s = Ok s'
                       /\ length s' = length s
                       /\ Forall normalized s').
  { intros c s Hin Hs.
    destruct (_normalize_list_columns_loop_column lib _ _ _ _ _ H Hin Hs)
      as (s' & Hl & Hap).
    exists s'. split; [done|]. split; [done|]. by apply apply_loaded_Ok in Hap. }
  split; [by eapply _normalize_list_columns_loop_names|].
  split; [intros c Hn; by eapply _normalize_list_columns_loop_frame|].
  split; [exact Hcol|].
  apply _normalize_list_columns_loop_fixed. intros c s Hin Hs.
  destruct (lookup_loaded c df) as [s0|] eqn:E.
  - destruct (Hcol c s0 Hin E) as (s' & Hl & _ & _ & Hn). congruence.
  - exfalso.
    assert (Hnames : map fst out = map fst df)
      by by eapply _normalize_list_columns_loop_names.
    assert (Hin_out : c ∈ map fst out).
    { clear -Hs. induction out as [|[n s1] out IH]; simpl in *; [discriminate|].
      destruct (String.eqb_spec n c) as [->|]; [left | right; by apply IH]. }
    rewrite Hnames in Hin_out. clear -E Hin_out.
    induction df as [|[n s1] df IH]; simpl in *; [inversion Hin_out|].
    destruct (String.eqb_spec n c) as [->|Hne]; [discriminate|].
    apply elem_of_cons in Hin_out as [->|Hin]; [done | by apply IH].
Qed.

Lemma _normalize_list_columns_idempotent_witness :
  _normalize_list_columns sample_lib recipes_loaded DEFAULT_LOADED_LIST_COLS
  = Ok recipes_loaded_normalized
  /\ _normalize_list_columns sample_lib recipes_loaded_normalized
       DEFAULT_LOADED_LIST_COLS
     = Ok recipes_loaded_normalized.
Proof.
  split; [reflexivity|].
  apply (_normalize_list_columns_idempotent sample_lib recipes_loaded).
  reflexivity.
Defined.


(** * Validation of a table (src/data_loader.py) *)

Lemma empty_true df : empty df = true <-> nrows df = 0 \/ columns df = [].
Proof.
  unfold empty. rewrite orb_true_iff, !Nat.eqb_eq.
  split; (intros [H|H]; [by left | right]).
  - by destruct (columns df).
  - by rewrite H.
Qed.

Lemma elem_of_missing df expected c :
  c ∈ List.filter (fun c => negb (has_column df c)) expected
  <-> c ∈ expected /\ c ∉ names df.
Proof.
  rewrite list_elem_of_In, filter_In, <- list_elem_of_In, negb_true_iff.
  by rewrite has_column_false.
Qed.

Lemma sublist_List_filter {A} (f : A -> bool) (l : list A) :
  List.filter f l `sublist_of` l.
Proof.
  induction l as [|x l IH]; simpl; [constructor|].
  destruct (f x); by constructor.
Qed.

(** [validate_dataframe] returns [True] or raises, never [False]: it returns
    exactly when the table has a row, a column, and every expected column;
    an empty table is reported as such whatever its columns are; otherwise
    the error lists the expected columns that are missing, in the order they
    were given, and all the columns of the table. *)
Theorem validate_dataframe_verdict (df : table) (expected : list string) :
  (validate_dataframe df expected = inr true
   <-> nrows df <> 0 /\ columns df <> []
       /\ forall c, c ∈ expected -> c ∈ names df)
  /\ validate_dataframe df expected <> inr false
  /\ (validate_dataframe df expected = inl EmptyFrame
      <-> nrows df = 0 \/ columns df = [])
  /\ (forall missing present,
        validate_dataframe df expected = inl (MissingColumns missing present) ->
        present = names df
        /\ missing `sublist_of` expected
        /\ (exists c, c ∈ missing)
        /\ forall c, c ∈ missing <-> c ∈ expected /\ c ∉ names df).
Proof.
  unfold validate_dataframe.
  pose proof (elem_of_missing df expected) as Hm.
  pose proof (sublist_List_filter (fun c => negb (has_column df c)) expected) as Hs.
  destruct (empty df) eqn:E.
  - apply empty_true in E.
    split; [split; [discriminate | intros (? & ? & _); by destruct E]|].
    split; [discriminate|]. split; [done|]. discriminate.
  - assert (Hne : ~ (nrows df = 0 \/ columns df = [])).
    { intros H. apply empty_true in H. congruence. }
    destruct (List.filter (fun c => negb (has_column df c)) expected)
      as [|m ms] eqn:F.
    + split.
      { split; [|done]. intros _. split; [tauto|]. split; [tauto|].
        intros c Hc. destruct (decide (c ∈ names df)) as [|Hn]; [done|].
        exfalso. assert (H : c ∈ @nil string) by by apply Hm. inversion H. }
      split; [discriminate|]. split; [split; [discriminate | done]|].
      discriminate.
    + split.
      { split; [discriminate|]. intros (_ & _ & H). exfalso.
        assert (Hin : m ∈ m :: ms) by left. apply Hm in Hin as [Hin Hn].
        by apply Hn, H. }
      split; [discriminate|]. split; [split; [discriminate | done]|].
      intros missing present [= <- <-]. split; [done|]. split; [done|].
      split; [exists m; left | done].
Qed.

Lemma validate_dataframe_verdict_witness :
  validate_dataframe recipes_raw ["name"; "nutrition"] = inr true
  /\ validate_dataframe recipes_raw ["id"; "name"; "minutes"]
     = inl (MissingColumns ["id"; "minutes"] ["name"; "nutrition"])
  /\ validate_dataframe (Table 0 [("name", plain [])]) ["id"] = inl EmptyFrame.
Proof.
  split; [|split].
  - apply (proj1 (validate_dataframe_verdict recipes_raw ["name"; "nutrition"])).
    split; [discriminate|]. split; [discriminate|].
    apply (proj1 (Forall_forall _ _)). apply (bool_decide_unpack _).
    vm_compute. exact I.
  - reflexivity.
  - apply (proj1 (proj2 (proj2 (validate_dataframe_verdict
                                   (Table 0 [("name", plain [])]) ["id"])))).
    by left.
Defined.

(** * Frequencies of the items of a list column (src/utils/Descriptive.py) *)

Lemma eqb_timestamp_eq t u : eqb_timestamp t u = true <-> t = u.
Proof.
  unfold eqb_timestamp. rewrite !andb_true_iff, !Z.eqb_eq.
  destruct t, u; simpl. split.
  - intros ((((-> & ->) & ->) & ->) & ->). done.
  - intros [= -> -> -> -> ->]. done.
Qed.

Lemma same_key_refl x : hashable x = true -> same_key x x = true.
Proof.
  destruct x; simpl; try done; intros _.
  - apply String.eqb_refl.
  - apply Qeq_bool_refl.
  - by apply eqb_timestamp_eq.
Qed.

Lemma same_key_sym x y : same_key x y = true -> same_key y x = true.
Proof.
  destruct x, y; simpl; try done.
  - by rewrite String.eqb_sym.
  - apply Qeq_bool_sym.
  - rewrite !eqb_timestamp_eq. done.
Qed.

Lemma same_key_trans x y z :
  same_key x y = true -> same_key y z = true -> same_key x z = true.
Proof.
  destruct x, y; simpl; try done; destruct z; simpl; try done.
  - rewrite !String.eqb_eq. congruence.
  - apply Qeq_bool_trans.
  - rewrite !eqb_timestamp_eq. congruence.
Qed.

Lemma same_key_ext x y z : same_key x y = true -> same_key x z = same_key y z.
Proof.
  intros H. destruct (same_key y z) eqn:E.
  - by eapply same_key_trans.
  - destruct (same_key x z) eqn:E'; [|done].
    rewrite <- E. symmetry. eapply same_key_trans; [|exact E'].
    by apply same_key_sym.
Qed.

Lemma occurrences_app x l l' :
  occurrences x (l ++ l') = occurrences x l + occurrences x l'.
Proof. unfold occurrences. by rewrite List.filter_app, length_app. Qed.

Lemma occurrences_same x y l :
  same_key x y = true -> occurrences x l = occurrences y l.
Proof.
  intros H. unfold occurrences. f_equal. apply filter_ext. intros z.
  by apply same_key_ext.
Qed.

Lemma tally_spec x counts :
  (exists pre y n post,
      counts = pre ++ (y, n) :: post /\ same_key y x = true
      /\ tally x counts = pre ++ (y, S n) :: post)
  \/ (Forall (fun p => same_key (fst p) x = false) counts
      /\ tally x counts = counts ++ [(x, 1)]).
Proof.
  induction counts as [|[y n] counts IH]; simpl.
  - right. by split.
  - destruct (same_key y x) eqn:E.
    + left. exists [], y, n, counts. by split.
    + destruct IH as [(pre & y' & n' & post & -> & Hy & ->)|[Hall ->]].
      * left. exists ((y, n) :: pre), y', n', post. by split.
      * right. split; [by constructor | done].
Qed.

Lemma filter_key_length_app (y : cell) (l l' : list (cell * nat)) :
  length (List.filter (fun p => same_key (fst p) y) (l ++ l'))
  = length (List.filter (fun p => same_key (fst p) y) l)
    + length (List.filter (fun p => same_key (fst p) y) l').
Proof. by rewrite List.filter_app, length_app. Qed.

Lemma filter_key_nil (y : cell) (l : list (cell * nat)) :
  Forall (fun p => same_key (fst p) y = false) l ->
  List.filter (fun p => same_key (fst p) y) l = [].
Proof.
  induction 1 as [|p l Hp _ IH]; simpl; [done|]. by rewrite Hp.
Qed.

Lemma filter_key_elem (y : cell) (l : list (cell * nat)) p :
  p ∈ l -> same_key (fst p) y = true ->
  1 <= length (List.filter (fun p => same_key (fst p) y) l).
Proof.
  intros Hin Hp. induction l as [|q l IH]; [inversion Hin|].
  simpl. apply elem_of_cons in Hin as [<-|Hin].
  - rewrite Hp. simpl. lia.
  - destruct (same_key (fst q) y); simpl; [lia | by apply IH].
Qed.

Lemma counted_nil : counted [] [].
Proof.
  split; [intros y n H; inversion H|]. split; [intros x H; inversion H|].
  intros y. simpl. lia.
Qed.

Lemma counted_tally x counts items :
  hashable x = true -> counted counts items ->
  counted (tally x counts) (items ++ [x]).
Proof.
  intros Hx (HA & HB & HK).
  assert (Hocc : forall z, occurrences z (items ++ [x])
                           = occurrences z items + (if same_key z x then 1 else 0)).
  { intros z. rewrite occurrences_app. f_equal. unfold occurrences. simpl.
    by destruct (same_key z x). }
  destruct (tally_spec x counts)
    as [(pre & y & n & post & -> & Hy & ->)|[Hall ->]].
  - assert (Hother : forall z m, (z, m) ∈ pre ++ post -> same_key z x = false).
    { intros z m Hin. destruct (same_key z x) eqn:E; [|done]. exfalso.
      assert (Hzy : same_key z y = true).
      { eapply same_key_trans; [exact E | by apply same_key_sym]. }
      assert (Hyy : same_key y y = true).
      { eapply same_key_trans; [exact Hy | by apply same_key_sym]. }
      specialize (HK y). rewrite filter_key_length_app in HK. simpl in HK.
      rewrite Hyy in HK. simpl in HK.
      apply elem_of_app in Hin as [Hin|Hin].
      + pose proof (filter_key_elem y pre _ Hin Hzy). lia.
      + pose proof (filter_key_elem y post _ Hin Hzy). lia. }
    split; [|split].
    + intros z m Hin. rewrite Hocc.
      apply elem_of_app in Hin as [Hin|Hin].
      * destruct (HA z m) as [Hz ->]; [apply elem_of_app; by left|].
        rewrite (Hother z (occurrences z items))
          by (apply elem_of_app; by left).
        split; [apply elem_of_app; by left | lia].
      * apply elem_of_cons in Hin as [[= -> ->]|Hin].
        -- destruct (HA y n) as [Hz ->]; [apply elem_of_app; right; left|].
           rewrite Hy. split; [apply elem_of_app; by left | lia].
        -- destruct (HA z m) as [Hz ->]; [apply elem_of_app; right; by right|].
           rewrite (Hother z (occurrences z items))
             by (apply elem_of_app; by right).
           split; [apply elem_of_app; by left | lia].
    + intros x' Hin. apply elem_of_app in Hin as [Hin|Hin].
      * destruct (HB x' Hin) as (y' & n' & Hin' & Hk).
        apply elem_of_app in Hin' as [Hin'|Hin'].
        -- exists y', n'. split; [apply elem_of_app; by left | done].
        -- apply elem_of_cons in Hin' as [[= -> ->]|Hin'].
           ++ exists y, (S n). split; [apply elem_of_app; right; left | done].
           ++ exists y', n'. split; [apply elem_of_app; right; by right | done].
      * apply list_elem_of_singleton in Hin as ->.
        exists y, (S n). split; [apply elem_of_app; right; left | done].
    + intros z. specialize (HK z). rewrite filter_key_length_app in *.
      simpl in *. by destruct (same_key y z).
  - split; [|split].
    + intros z m Hin. rewrite Hocc. apply elem_of_app in Hin as [Hin|Hin].
      * destruct (HA z m Hin) as [Hz ->].
        pose proof (proj1 (Forall_forall _ _) Hall _ Hin) as Hf. simpl in Hf.
        rewrite Hf. split; [apply elem_of_app; by left | lia].
      * apply list_elem_of_singleton in Hin as [= -> ->].
        rewrite (same_key_refl x Hx).
        split; [apply elem_of_app; right; left|].
        assert (H0 : occurrences x items = 0); [|lia].
        unfold occurrences.
        destruct (List.filter (same_key x) items) as [|w ws] eqn:F; [done|].
        exfalso. assert (Hw : In w (List.filter (same_key x) items))
          by (rewrite F; by left).
        apply filter_In in Hw as [Hw Hxw]. apply list_elem_of_In in Hw.
        destruct (HB w Hw) as (y' & n' & Hin' & Hk).
        pose proof (proj1 (Forall_forall _ _) Hall _ Hin') as Hf. simpl in Hf.
        rewrite (same_key_trans y' w x Hk (same_key_sym _ _ Hxw)) in Hf. done.
    + intros x' Hin. apply elem_of_app in Hin as [Hin|Hin].
      * destruct (HB x' Hin) as (y' & n' & Hin' & Hk).
        exists y', n'. split; [apply elem_of_app; by left | done].
      * apply list_elem_of_singleton in Hin as ->.
        exists x, 1. split; [apply elem_of_app; right; left|].
        by apply same_key_refl.
    + intros z. rewrite filter_key_length_app. simpl.
      destruct (same_key x z) eqn:E; simpl; [|specialize (HK z); lia].
      rewrite filter_key_nil; [simpl; lia|].
      apply Forall_forall. intros p Hp.
      pose proof (proj1 (Forall_forall _ _) Hall _ Hp) as Hf. simpl in Hf.
      destruct (same_key (fst p) z) eqn:E'; [|done].
      rewrite (same_key_trans _ _ _ E' (same_key_sym _ _ E)) in Hf. done.
Qed.

Lemma counted_fold items seen counts :
  forallb hashable items = true -> counted counts seen ->
  counted (fold_left (fun counts x => tally x counts) items counts)
          (seen ++ items).
Proof.
  revert seen counts. induction items as [|x items IH]; intros seen counts Hh Hc.
  - by rewrite app_nil_r.
  - simpl in *. apply andb_true_iff in Hh as [Hx Hh].
    replace (seen ++ x :: items) with ((seen ++ [x]) ++ items)
      by (by rewrite <- app_assoc).
    apply IH; [done|]. by apply counted_tally.
Qed.

Lemma Counter_counted items counts :
  Counter items = Ok counts -> counted counts items.
Proof.
  unfold Counter. destruct (forallb hashable items) eqn:E; [|discriminate].
  intros [= <-]. apply (counted_fold items [] [] E counted_nil).
Qed.

Lemma insert_by_count_Permutation p l : insert_by_count p l ≡ₚ p :: l.
Proof.
  induction l as [|q l IH]; simpl; [done|].
  destruct (snd p <? snd q); [|done]. rewrite IH. apply Permutation_swap.
Qed.

Lemma sorted_by_count_Permutation l : sorted_by_count l ≡ₚ l.
Proof.
  induction l as [|p l IH]; simpl; [done|].
  rewrite insert_by_count_Permutation. by rewrite IH.
Qed.

Lemma insert_by_count_descending p l :
  descending l -> descending (insert_by_count p l).
Proof.
  induction l as [|q l IH]; simpl; [done|]. intros [Hq Hl].
  destruct (Nat.ltb_spec (snd p) (snd q)) as [Hlt|Hge]; simpl.
  - split; [|by apply IH].
    rewrite insert_by_count_Permutation. constructor; [lia | done].
  - split; [|done]. constructor; [done|].
    eapply Forall_impl; [exact Hq|]. simpl. intros r Hr. lia.
Qed.

Lemma sorted_by_count_descending l : descending (sorted_by_count l).
Proof.
  induction l as [|p l IH]; simpl; [done|]. by apply insert_by_count_descending.
Qed.

Lemma descending_app l l' p q :
  descending (l ++ l') -> p ∈ l -> q ∈ l' -> snd q <= snd p.
Proof.
  induction l as [|r l IH]; intros Hd Hp Hq; [inversion Hp|].
  simpl in Hd. destruct Hd as [Hr Hd].
  apply elem_of_cons in Hp as [->|Hp]; [|by apply IH].
  apply (proj1 (Forall_forall _ _) Hr). apply elem_of_app. by right.
Qed.

Lemma descending_lookup l i j p q :
  descending l -> i <= j -> l !! i = Some p -> l !! j = Some q ->
  snd q <= snd p.
Proof.
  revert i j. induction l as [|r l IH]; intros i j Hd Hij Hi Hj; [done|].
  simpl in Hd. destruct Hd as [Hr Hd].
  destruct i as [|i]; simpl in Hi.
  - inversion Hi; subst. destruct j as [|j]; simpl in Hj.
    + inversion Hj; subst. lia.
    + apply (proj1 (Forall_forall _ _) Hr). by eapply list_elem_of_lookup_2.
  - destruct j as [|j]; [lia|]. simpl in Hj. apply (IH i j); [done | lia | done..].
Qed.

Lemma descending_take k l : descending l -> descending (take k l).
Proof.
  revert k. induction l as [|p l IH]; intros k Hd; [by destruct k|].
  destruct k as [|k]; [done|]. simpl in *. destruct Hd as [Hp Hd].
  split; [|by apply IH]. apply Forall_forall. intros q Hq.
  apply (proj1 (Forall_forall _ _) Hp).
  apply elem_of_take in Hq as (i & Hi & _). by eapply list_elem_of_lookup_2.
Qed.

Lemma filter_length_Permutation {A} (f : A -> bool) (l l' : list A) :
  l ≡ₚ l' -> length (List.filter f l) = length (List.filter f l').
Proof.
  induction 1 as [|x l l' _ IH|x y l|l l' l'' _ IH _ IH']; simpl.
  - done.
  - destruct (f x); simpl; by rewrite IH.
  - destruct (f x), (f y); done.
  - by rewrite IH.
Qed.

Lemma plain_items_hashable items :
  Forall (fun x => plain_item x = true) items -> forallb hashable items = true.
Proof.
  induction 1 as [|x items Hx _ IH]; simpl; [done|].
  rewrite IH. by destruct x.
Qed.

(** The frequency table of [analyze_list_column], for a column whose lists
    hold strings, numbers or timestamps: it has at most [top_k] rows; every
    row is an item of the lists with the number of its occurrences in all
    the lists of the column; no item has two rows; the frequencies do not
    increase down the table; and an item without a row occurs at most as
    often as every item that has one, the table being full then. *)
Theorem analyze_list_column_counts (df : table) (col_name : string) (top_k : Z)
    (s : column) :
  getitem df col_name = Ok s ->
  Forall (fun x => plain_item x = true) (list_items (cells s)) ->
  let items := list_items (cells s) in
  exists top,
    analyze_list_column df col_name top_k = Ok (frequency_frame top)
    /\ length top <= Z.to_nat top_k
    /\ (forall x n, (x, n) ∈ top -> x ∈ items /\ n = occurrences x items)
    /\ (forall y, length (List.filter (fun p => same_key (fst p) y) top) <= 1)
    /\ (forall i j p q, i <= j -> top !! i = Some p -> top !! j = Some q ->
          snd q <= snd p)
    /\ (forall x, x ∈ items ->
          (exists y n, (y, n) ∈ top /\ same_key y x = true)
          \/ (length top = Z.to_nat top_k
              /\ forall y n, (y, n) ∈ top -> occurrences x items <= n)).
Proof.
  intros Hg Hplain items.
  unfold analyze_list_column. rewrite (getitem_has_column _ _ _ Hg), Hg. simpl.
  fold items. unfold Counter.
  rewrite (plain_items_hashable items Hplain). simpl.
  set (counts := fold_left (fun counts x => tally x counts) items []).
  assert (Hc : counted counts items).
  { apply Counter_counted. unfold Counter.
    by rewrite (plain_items_hashable items Hplain). }
  destruct Hc as (HA & HB & HK).
  pose proof (sorted_by_count_Permutation counts) as Hperm.
  pose proof (sorted_by_count_descending counts) as Hdesc.
  unfold most_common. set (k := Z.to_nat top_k).
  set (sorted := sorted_by_count counts) in *.
  assert (Hsub : forall p, p ∈ take k sorted -> p ∈ counts).
  { intros p Hp. rewrite <- Hperm.
    apply elem_of_take in Hp as (i & Hi & _). by eapply list_elem_of_lookup_2. }
  exists (take k sorted). split; [done|].
  split; [rewrite length_take; lia|].
  split; [intros x n Hin; by apply HA, Hsub|].
  split.
  { intros y. specialize (HK y).
    rewrite <- (filter_length_Permutation _ _ _ Hperm) in HK.
    rewrite <- (take_drop k sorted), filter_key_length_app in HK. lia. }
  split.
  { intros i j p q. apply descending_lookup. by apply descending_take. }
  intros x Hx. destruct (HB x Hx) as (y & n & Hin & Hk).
  rewrite <- Hperm, <- (take_drop k sorted) in Hin.
  apply elem_of_app in Hin as [Hin|Hin].
  - left. by exists y, n.
  - right. split.
    + rewrite length_take. apply Nat.min_l.
      apply list_elem_of_lookup_1 in Hin as (i & Hi).
      apply lookup_lt_Some in Hi. rewrite length_drop in Hi. lia.
    + intros y' n' Hin'.
      assert (Hn : n = occurrences x items).
      { destruct (HA y n) as [_ ->].
        - rewrite <- Hperm, <- (take_drop k sorted). apply elem_of_app. by right.
        - by apply occurrences_same. }
      rewrite <- Hn.
      apply (descending_app (take k sorted) (drop k sorted) (y', n') (y, n));
        [by rewrite take_drop | done..].
Qed.

Lemma analyze_list_column_counts_witness :
  analyze_list_column recipes_tagged "tags" 2
  = Ok (frequency_frame [(Str "quick", 3); (Str "vegan", 2)])
  /\ exists top,
       analyze_list_column recipes_tagged "tags" 2 = Ok (frequency_frame top)
       /\ length top <= 2
       /\ forall x n, (x, n) ∈ top ->
            n = occurrences x [Str "easy"; Str "quick"; Str "vegan";
                               Str "quick"; Str "vegan"; Str "quick"].
Proof.
  split; [reflexivity|].
  destruct (analyze_list_column_counts recipes_tagged "tags" 2
              (plain [Seq [Str "easy"; Str "quick"; Str "vegan"]; Absent;
                      Seq [Str "quick"; Str "vegan"; Str "quick"]]) eq_refl)
    as (top & E & Hlen & Hocc & _).
  - repeat constructor.
  - exists top. split; [exact E|]. split; [exact Hlen|].
    intros x n Hin. by apply Hocc.
Defined.

Lemma list_items_no_list xs :
  Forall (fun x => unSeq x = None) xs -> list_items xs = [].
Proof.
  unfold list_items. induction 1 as [|x xs Hx _ IH]; simpl; [done|].
  destruct x; simpl; done.
Qed.

Lemma elem_of_list_items xs l x : Seq l ∈ xs -> x ∈ l -> x ∈ list_items xs.
Proof.
  intros Hl Hx. unfold list_items. apply list_elem_of_In, in_flat_map.
  exists (Seq l). split; [|by apply list_elem_of_In].
  apply filter_In. split; [by apply list_elem_of_In | done].
Qed.

(** The edges of [analyze_list_column]: a KeyError with its own message when
    the column is missing; the empty table, without an error, when no cell of
    the column is a list (a column that is still text, for one) and when
    [top_k] is zero or negative; a TypeError when an item of a list is itself
    a list or a dict. *)
Theorem analyze_list_column_edges (df : table) (col_name : string) (top_k : Z) :
  (col_name ∉ names df ->
   analyze_list_column df col_name top_k
   = Raise (KeyError (String.append "Colonne absente: " col_name)))
  /\ (forall s, getitem df col_name = Ok s ->
        (Forall (fun x => unSeq x = None) (cells s) ->
         analyze_list_column df col_name top_k = Ok (frequency_frame []))
        /\ ((top_k <= 0)%Z ->
            forallb hashable (list_items (cells s)) = true ->
            analyze_list_column df col_name top_k = Ok (frequency_frame []))
        /\ (forall l x, Seq l ∈ cells s -> x ∈ l -> hashable x = false ->
              analyze_list_column df col_name top_k = Raise Unhashable)).
Proof.
  split.
  - intros Hn. unfold analyze_list_column.
    by rewrite (proj2 (has_column_false df col_name) Hn).
  - intros s Hg. unfold analyze_list_column.
    rewrite (getitem_has_column _ _ _ Hg), Hg. simpl.
    split; [|split].
    + intros Hno. rewrite (list_items_no_list _ Hno). simpl.
      unfold most_common. simpl. by destruct (Z.to_nat top_k).
    + intros Hk Hh. unfold Counter. rewrite Hh. simpl. unfold most_common.
      replace (Z.to_nat top_k) with 0 by lia. done.
    + intros l x Hl Hx Hu. unfold Counter.
      destruct (forallb hashable (list_items (cells s))) eqn:E; [|done].
      exfalso. rewrite forallb_forall in E.
      rewrite (E x) in Hu; [done|].
      apply list_elem_of_In. by eapply elem_of_list_items.
Qed.

Lemma analyze_list_column_edges_witness :
  analyze_list_column recipes_unparsed_tags "tags" 10 = Ok (frequency_frame [])
  /\ analyze_list_column recipes_unparsed_tags "ingredients" 10
     = Raise (KeyError "Colonne absente: ingredients")
  /\ analyze_list_column recipes_tagged "tags" 0 = Ok (frequency_frame []).
Proof.
  split; [|split].
  - apply (proj1 (proj2 (analyze_list_column_edges recipes_unparsed_tags "tags" 10)
                    (plain [Str "['easy', 'quick']"; Str "['quick']"]) eq_refl)).
    repeat constructor.
  - apply (proj1 (analyze_list_column_edges recipes_unparsed_tags "ingredients" 10)).
    apply (bool_decide_unpack _). vm_compute. exact I.
  - apply (proj1 (proj2 (proj2 (analyze_list_column_edges recipes_tagged "tags" 0)
                           _ eq_refl))); [lia | reflexivity].
Defined.

(** * The length of a description (src/feature_engineering.py) *)

Lemma count_words_cons w x s1 :
  count_words w (String x s1)
  = if space1 x then count_words false s1
    else match s1 with
         | String y s2 =>
             if space2 x y then count_words false s2
             else match s2 with
                  | String z s3 =>
                      if space3 x y z then count_words false s3
                      else (if w then 0 else 1) + count_words true s1
                  | EmptyString => (if w then 0 else 1) + count_words true s1
                  end
         | EmptyString => (if w then 0 else 1) + count_words true s1
         end.
Proof. destruct s1 as [|y [|z s3]]; reflexivity. Qed.

Lemma space2_space x : space2 x Ascii.Space = false.
Proof. unfold space2. simpl. apply andb_false_r. Qed.

Lemma space3_space x y : space3 x y Ascii.Space = false.
Proof. unfold space3. simpl. by rewrite !andb_false_r. Qed.

Lemma space3_mid_space x z : space3 x Ascii.Space z = false.
Proof. unfold space3. simpl. by rewrite !andb_false_r. Qed.

Lemma count_words_space w b : count_words w (String Ascii.Space b) = words b.
Proof. by rewrite count_words_cons. Qed.

Ltac append_cons :=
  repeat match goal with
         | |- context [String.append (String ?x ?a) ?r] =>
             change (String.append (String x a) r)
               with (String x (String.append a r))
         | |- context [String.append EmptyString ?r] =>
             change (String.append EmptyString r) with r
         end.

Lemma count_words_append_space b n :
  forall a w, String.length a <= n ->
    count_words w (String.append a (String Ascii.Space b)) = count_words w a + words b.
Proof.
  induction n as [|n IH]; intros a w Hn.
  - destruct a; [|simpl in Hn; lia]. apply count_words_space.
  - destruct a as [|x a1]; [apply count_words_space|].
    append_cons. rewrite (count_words_cons w x (String.append _ _)).
    rewrite (count_words_cons w x a1).
    destruct (space1 x); [apply IH; simpl in Hn; lia|].
    destruct a1 as [|y a2]; append_cons; cbv beta iota.
    + rewrite space2_space, count_words_space.
      destruct b as [|c b']; [|rewrite space3_mid_space]; simpl; lia.
    + destruct (space2 x y); [apply IH; simpl in Hn; lia|].
      destruct a2 as [|z a3]; append_cons; cbv beta iota.
      * rewrite space3_space, <- Nat.add_assoc. f_equal.
        apply (IH (String y EmptyString) true). simpl in *. lia.
      * destruct (space3 x y z); [apply IH; simpl in Hn; lia|].
        rewrite <- Nat.add_assoc. f_equal.
        apply (IH (String y (String z a3)) true). simpl in *. lia.
Qed.

Lemma words_append_space a b :
  words (String.append a (String.append " " b)) = words a + words b.
Proof. by apply (count_words_append_space b (String.length a)). Qed.

Lemma description_lengths_Plain tl s :
  col_dtype s = Plain ->
  description_lengths tl s
  = Ok (Column Plain
          (map (fun x => Num (inject_Z (Z.of_nat (word_count tl (fill_blank x)))))
               (cells s))).
Proof. unfold description_lengths. by intros ->. Qed.

(** [add_recipe_features] needs the column description_filled and raises a
    KeyError without it.  On a text column it returns the table with the
    column description_length set, in place when the table has one and as
    the last column otherwise, all other columns as they were: the number of
    whitespace-separated words of the description, 0 for a missing one.  The
    number of words is additive over a space. *)
Theorem add_recipe_features_counts_words (tl : textlib) (df : table) :
  ("description_filled" ∉ names df ->
   add_recipe_features tl df = Raise (KeyError "description_filled"))
  /\ (forall s,
        getitem df "description_filled" = Ok s -> col_dtype s = Plain ->
        exists out lengths,
          add_recipe_features tl df = Ok out
          /\ nrows out = nrows df
          /\ names out
             = (if has_column df "description_length" then names df
                else names df ++ ["description_length"])
          /\ getitem out "description_length" = Ok (Column Plain lengths)
          /\ length lengths = length (cells s)
          /\ (forall i, cells s !! i = Some Absent ->
                lengths !! i = Some (Num 0))
          /\ (forall i t, cells s !! i = Some (Str t) ->
                lengths !! i = Some (Num (inject_Z (Z.of_nat (words t)))))
          /\ (forall c, c <> "description_length" ->
                lookup_column c (columns out) = lookup_column c (columns df)))
  /\ (forall a b,
        words (String.append a (String.append " " b)) = words a + words b).
Proof.
  split; [|split; [|apply words_append_space]].
  - intros Hn. unfold add_recipe_features, _copy, getitem.
    by rewrite (proj2 (lookup_column_None _ _) Hn).
  - intros s Hg Hp. unfold add_recipe_features, _copy. rewrite Hg. simpl.
    rewrite (description_lengths_Plain tl s Hp). simpl.
    eexists _, _. split; [reflexivity|]. split; [done|].
    split.
    { destruct (has_column df "description_length") eqn:E.
      - by apply names_setitem_present.
      - apply names_assign_new. by apply has_column_false. }
    split; [apply getitem_lookup; simpl; apply lookup_assign_eq|].
    split; [by rewrite length_map|].
    split; [intros i Hi; rewrite list_lookup_fmap, Hi; reflexivity|].
    split; [intros i t Hi; rewrite list_lookup_fmap, Hi; reflexivity|].
    intros c Hc. simpl. by apply lookup_assign_ne.
Qed.

Lemma add_recipe_features_counts_words_witness :
  add_recipe_features sample_textlib recipes_raw_description
  = Raise (KeyError "description_filled")
  /\ (exists out,
        add_recipe_features sample_textlib recipes_described = Ok out
        /\ names out = ["name"; "description_filled"; "description_length"]
        /\ getitem out "description_length" = Ok (plain [Num 4; Num 0; Num 0]))
  /\ words "a quick  winter soup" = words "a quick " + words "winter soup".
Proof.
  destruct (add_recipe_features_counts_words sample_textlib
              recipes_raw_description) as (Hmiss & _ & _).
  destruct (add_recipe_features_counts_words sample_textlib recipes_described)
    as (_ & Hok & Hadd).
  split; [|split].
  - apply Hmiss. apply (bool_decide_unpack _). vm_compute. exact I.
  - destruct (Hok (plain [Str "a quick  winter soup"; Absent; Str "   "])
                eq_refl eq_refl) as (out & lengths & E & _ & N & G & _).
    exists out. split; [exact E|]. split; [exact N|].
    clear -E. vm_compute in E. injection E as <-. reflexivity.
  - apply (Hadd "a quick " "winter soup").
Defined.

Lemma returns_add_recipe_features (tl : textlib) (st : store) (r : ref) :
  returns (length st) (add_recipe_features tl (deref st r)) st
    (add_recipe_features_st tl r st).
Proof.
  unfold add_recipe_features, add_recipe_features_st.
  unfold seq, _copy_st, getitem_st, setitem_st, update_frame,
    frame, new_frame, ret, lift, _copy.
  store_simpl. set (df := deref st r).
  destruct (getitem df "description_filled") as [s|e]; store_simpl; [|store_done].
  destruct (description_lengths tl s) as [c|e]; store_simpl; store_done.
Qed.

(** [add_recipe_features] works on a copy: whether it returns or raises, every
    frame that was there when it was called, its argument included, is as it
    was, and the frame it returns is a new one. *)
Theorem add_recipe_features_leaves_input_alone (tl : textlib) (st : store)
    (df_in : ref) :
  let out := add_recipe_features_st tl df_in st in
  leaves_alone st (snd out)
  /\ ends_as (add_recipe_features tl (deref st df_in)) st (fst out) (snd out).
Proof. intros out. apply returns_leaves_alone, returns_add_recipe_features. Qed.

(** * The pipeline on tables as they are loaded *)










(** * Which stages can be run again *)

Lemma assign_same col c cs :
  lookup_column col cs = Some c -> assign col c cs = cs.
Proof.
  induction cs as [|[n c0] cs IH]; simpl; [discriminate|].
  destruct (String.eqb_spec n col) as [->|Hn].
  - by intros [= ->].
  - intros H. by rewrite IH.
Qed.

Lemma setitem_same df col c :
  lookup_column col (columns df) = Some c -> setitem df col c = df.
Proof. intros H. unfold setitem. rewrite (assign_same _ _ _ H). by destruct df. Qed.

(** The category caster keeps every value and is idempotent: when it
    returns, the table has the labels and rows of the input, the column it
    names holds the same cells as a category column, every other column is as
    it was, and the caster applied to the result returns the result. *)
Theorem category_caster_is_idempotent (df out : table) (col : string) :
  convert_contributor_to_category df col = Ok out ->
  names out = names df
  /\ nrows out = nrows df
  /\ (forall s, getitem df col = Ok s ->
        getitem out col = Ok (Column Category (cells s)))
  /\ (forall c, c <> col ->
        lookup_column c (columns out) = lookup_column c (columns df))
  /\ convert_contributor_to_category out col = Ok out.
Proof.
  intros H. pose proof (convert_contributor_to_category_shape_names _ _ _ H) as N.
  apply convert_contributor_to_category_Ok in H
    as [[Hc ->]|(s & Hc & Hg & Hh & ->)].
  - split; [done|]. split; [done|]. split.
    { intros s Hg. apply getitem_has_column in Hg. congruence. }
    split; [done|]. by apply convert_contributor_to_category_missing.
  - split; [done|]. split; [done|]. split.
    { intros s' Hg'. rewrite Hg in Hg'. inversion Hg'; subst.
      apply getitem_lookup. simpl. apply lookup_assign_eq. }
    split; [intros c Hne; simpl; by apply lookup_assign_ne|].
    set (out := setitem df col (Column Category (cells s))) in *.
    assert (Hl : lookup_column col (columns out) = Some (Column Category (cells s)))
      by apply lookup_assign_eq.
    unfold convert_contributor_to_category, _copy.
    assert (Ho : has_column out col = true).
    { unfold has_column. rewrite N. exact Hc. }
    rewrite Ho. rewrite (proj2 (getitem_lookup _ _ _) Hl). simpl.
    unfold astype_category. simpl. rewrite Hh. simpl. f_equal.
    by apply setitem_same.
Qed.

Lemma category_caster_is_idempotent_witness :
  exists out,
    convert_contributor_to_category recipes_raw "name" = Ok out
    /\ getitem out "name" = Ok (Column Category [Str "soup"; Str "cake"])
    /\ convert_contributor_to_category out "name" = Ok out.
Proof.
  eexists. split; [reflexivity|].
  destruct (category_caster_is_idempotent recipes_raw _ "name" eq_refl)
    as (_ & _ & Hs & _ & Hi).
  split; [exact (Hs (plain [Str "soup"; Str "cake"]) eq_refl) | exact Hi].
Defined.

Lemma to_datetime_cells lib s :
  Forall (fun x => x = Absent \/ exists t, x = Stamp t) (cells (to_datetime lib s)).
Proof.
  unfold to_datetime. simpl. apply Forall_forall. intros x Hx.
  apply list_elem_of_fmap in Hx as (y & -> & _). unfold coerce_datetime.
  destruct (parse_datetime lib (cells s) y); eauto.
Qed.

Lemma to_datetime_again lib s :
  keeps_datetimes lib -> to_datetime lib (to_datetime lib s) = to_datetime lib s.
Proof.
  intros Hk. unfold to_datetime at 1.
  by rewrite (Hk _ (to_datetime_cells lib s)).
Qed.

Lemma add_part_fixed src parts name part df ts :
  getitem df src = Ok ts -> col_dtype ts = Datetime ->
  (name ∈ parts ->
   lookup_column name (columns df)
   = Some (Column Plain (map (part_value part) (cells ts)))) ->
  add_part src parts name part df = Ok df.
Proof.
  intros Hg Hd Hl. unfold add_part.
  destruct (decide (name ∈ parts)) as [Hin|Hout].
  - rewrite bool_decide_eq_true_2 by done. rewrite Hg. simpl. unfold dt.
    rewrite Hd. simpl. f_equal. by apply setitem_same, Hl.
  - by rewrite bool_decide_eq_false_2.
Qed.

(** The temporal converter can be run again: when [pd.to_datetime] gives
    back the cells of a column that holds timestamps already and the source
    column is none of the part columns, the converter applied to its own
    result returns that result. *)
Theorem temporal_converter_is_idempotent (lib : pylib) (df out : table)
    (submitted_col : string) (add_parts : bool) (parts : list string) :
  keeps_datetimes lib ->
  submitted_col ∉ TEMPORAL_PARTS ->
  convert_temporal_columns lib df submitted_col add_parts parts = Ok out ->
  convert_temporal_columns lib out submitted_col add_parts parts = Ok out.
Proof.
  intros Hk Hsrc H.
  apply not_elem_of_TEMPORAL_PARTS in Hsrc as (Sy & Sm & Sd & Sw).
  destruct (has_column df submitted_col) eqn:Hc.
  2: { rewrite convert_temporal_columns_missing in H by done.
       inversion H; subst. by apply convert_temporal_columns_missing. }
  destruct (getitem_present df submitted_col Hc) as (s & Hg & _).
  unfold convert_temporal_columns, _copy in H. rewrite Hc, Hg in H. simpl in H.
  set (ts := to_datetime lib s) in *.
  set (df0 := setitem df submitted_col ts) in *.
  assert (G0 : getitem df0 submitted_col = Ok ts).
  { apply getitem_lookup. apply lookup_assign_eq. }
  assert (D0 : col_dtype ts = Datetime) by done.
  assert (Hfix : forall d, getitem d submitted_col = Ok ts ->
             has_column d submitted_col = true
             /\ getitem d submitted_col = Ok ts
             /\ setitem d submitted_col (to_datetime lib ts) = d).
  { intros d Gd. split; [by eapply getitem_has_column|]. split; [done|].
    unfold ts. rewrite to_datetime_again by done. apply setitem_same.
    by apply getitem_lookup. }
  destruct add_parts.
  - destruct (add_part_total submitted_col parts "year" ts_year df0 ts)
      as (df1 & E1 & G1 & _ & L1 & F1); [done..|].
    destruct (add_part_total submitted_col parts "month" ts_month df1 ts)
      as (df2 & E2 & G2 & _ & L2 & F2); [done..|].
    destruct (add_part_total submitted_col parts "day" ts_day df2 ts)
      as (df3 & E3 & G3 & _ & L3 & F3); [done..|].
    destruct (add_part_total submitted_col parts "dayofweek" ts_dayofweek df3 ts)
      as (df4 & E4 & G4 & _ & L4 & F4); [done..|].
    rewrite E1 in H; simpl in H. rewrite E2 in H; simpl in H.
    rewrite E3 in H; simpl in H. rewrite E4 in H; simpl in H.
    inversion H; subst out. clear H.
    destruct (Hfix df4 G4) as (Hc4 & _ & S4).
    unfold convert_temporal_columns, _copy. rewrite Hc4, G4. simpl.
    rewrite S4.
    rewrite (add_part_fixed submitted_col parts "year" ts_year df4 ts G4 D0).
    2: { intros Hin. rewrite F4, F3, F2, L1 by done.
         by rewrite bool_decide_eq_true_2. }
    simpl.
    rewrite (add_part_fixed submitted_col parts "month" ts_month df4 ts G4 D0).
    2: { intros Hin. rewrite F4, F3, L2 by done.
         by rewrite bool_decide_eq_true_2. }
    simpl.
    rewrite (add_part_fixed submitted_col parts "day" ts_day df4 ts G4 D0).
    2: { intros Hin. rewrite F4, L3 by done.
         by rewrite bool_decide_eq_true_2. }
    simpl.
    rewrite (add_part_fixed submitted_col parts "dayofweek" ts_dayofweek df4 ts
               G4 D0).
    2: { intros Hin. rewrite L4. by rewrite bool_decide_eq_true_2. }
    done.
  - inversion H; subst out. clear H.
    destruct (Hfix df0 G0) as (Hc0 & _ & S0).
    unfold convert_temporal_columns, _copy. rewrite Hc0, G0. simpl.
    by rewrite S0.
Qed.

Lemma sample_lib_keeps_datetimes : keeps_datetimes sample_lib.
Proof.
  intros ctx H. induction H as [|x xs Hx _ IH]; [done|].
  simpl. f_equal.
  - by destruct Hx as [->|[t ->]].
  - transitivity (map (coerce_datetime sample_lib xs) xs); [|done].
    apply map_ext. intros y. reflexivity.
Qed.

Lemma temporal_converter_is_idempotent_witness :
  convert_temporal_columns sample_lib recipes_with_year "submitted" true ["year"]
  = Ok recipes_with_year_converted
  /\ convert_temporal_columns sample_lib recipes_with_year_converted "submitted"
       true ["year"]
     = Ok recipes_with_year_converted.
Proof.
  split; [reflexivity|].
  apply (temporal_converter_is_idempotent sample_lib recipes_with_year).
  - apply sample_lib_keeps_datetimes.
  - apply (bool_decide_unpack _). vm_compute. exact I.
  - reflexivity.
Defined.

(** * From the loader to the preprocessing *)

Lemma apply_loaded_elem_of f xs ys x y :
  apply_loaded f xs = Ok ys -> x ∈ xs -> f x = Ok y -> Value y ∈ ys.
Proof.
  revert ys. induction xs as [|z xs IH]; intros ys H Hin Hf; [inversion Hin|].
  simpl in H. bind_inv H. bind_inv H. inversion H; subst.
  apply elem_of_cons in Hin as [Heq|Hin].
  - subst z. rewrite Hf in Ha. inversion Ha; subst. left.
  - right. by apply IH.
Qed.

Lemma lookup_loaded_of_table df col s :
  lookup_loaded col (loaded_of_table df) = Some s ->
  exists c, lookup_column col (columns df) = Some c /\ s = map Value (cells c).
Proof.
  unfold loaded_of_table. induction (columns df) as [|[n c] cs IH]; simpl;
    [discriminate|].
  destruct (String.eqb n col); [|done].
  intros [= <-]. by exists c.
Qed.

(** A frame out of [_normalize_list_columns] cannot go through the list
    parser of the preprocessing: when a normalized column held a list or an
    array of two or more scalar entries and is among the columns to parse,
    [convert_list_like_columns] raises on the normalized frame. *)
Theorem normalized_frames_stop_the_list_parser (lib : pylib) (lf : loaded_frame)
    (df : table) (list_cols list_like_cols : list string) (col : string)
    (s : list loaded) (x y : cell) (rest : list cell) :
  _normalize_list_columns lib lf list_cols = Ok (loaded_of_table df) ->
  col ∈ list_cols -> col ∈ list_like_cols ->
  lookup_loaded col lf = Some s ->
  NdArray (x :: y :: rest) ∈ s \/ Value (Seq (x :: y :: rest)) ∈ s ->
  scalar x -> scalar y ->
  exists e, convert_list_like_columns lib df list_like_cols = Raise e
            /\ (e = AmbiguousTruth \/ e = LiteralEvalEscapes).
Proof.
  intros H Hin Hin' Hs Hcell Hx Hy.
  destruct (_normalize_list_columns_loop_column lib _ _ _ _ _ H Hin Hs)
    as (s' & Hl & Hap).
  assert (Hv : Value (Seq (x :: y :: rest)) ∈ s').
  { destruct Hcell as [Hc|Hc];
      by apply (apply_loaded_elem_of _ _ _ _ _ Hap Hc). }
  apply lookup_loaded_of_table in Hl as (c & Hc & ->).
  apply list_elem_of_fmap in Hv as (v & [= <-] & Hv).
  unfold convert_list_like_columns, _copy.
  destruct (convert_list_like_loop_flat_list lib df list_like_cols col c x y rest)
    as [e He]; [done | by apply getitem_lookup | done..|].
  exists e. split; [done|]. by eapply convert_list_like_loop_Raise.
Qed.

Lemma normalized_frames_stop_the_list_parser_witness :
  _normalize_list_columns sample_lib recipes_tag_array DEFAULT_LOADED_LIST_COLS
  = Ok (loaded_of_table recipes_tag_list)
  /\ exists e,
       convert_list_like_columns sample_lib recipes_tag_list
         DEFAULT_LIST_LIKE_COLS = Raise e
       /\ (e = AmbiguousTruth \/ e = LiteralEvalEscapes).
Proof.
  split; [reflexivity|].
  apply (normalized_frames_stop_the_list_parser sample_lib recipes_tag_array
           recipes_tag_list DEFAULT_LOADED_LIST_COLS DEFAULT_LIST_LIKE_COLS "tags"
           [NdArray [Str "easy"; Str "quick"]] (Str "easy") (Str "quick") []);
    [reflexivity | solve_elem | solve_elem | reflexivity | left; left
    | reflexivity | reflexivity].
Defined.

(** * Ties in the frequency table of a list column *)

Lemma first_index_app_l x l l' w :
  w ∈ l -> same_key x w = true ->
  first_index x (l ++ l') = first_index x l /\ first_index x l < length l.
Proof.
  intros Hin Hw. induction l as [|y l IH]; [inversion Hin|]. simpl.
  destruct (same_key x y) eqn:E; [split; [done | lia]|].
  apply elem_of_cons in Hin as [->|Hin]; [congruence|].
  destruct (IH Hin) as [-> ?]. split; [done | lia].
Qed.

Lemma first_index_app_r x l l' :
  Forall (fun w => same_key x w = false) l ->
  first_index x (l ++ l') = length l + first_index x l'.
Proof.
  induction 1 as [|y l Hy _ IH]; simpl; [done|]. by rewrite Hy, IH.
Qed.

Lemma by_first_occurrence_ext items items' keys :
  (forall k, k ∈ keys -> first_index k items' = first_index k items) ->
  by_first_occurrence items keys -> by_first_occurrence items' keys.
Proof.
  induction keys as [|k keys IH]; intros Heq H; [done|].
  simpl in *. destruct H as [Hk H]. split.
  - rewrite Forall_forall in *. intros k' Hk'.
    rewrite (Heq k), (Heq k') by (by (left || right)). by apply Hk.
  - apply IH; [|done]. intros k' Hk'. apply Heq. by right.
Qed.

Lemma by_first_occurrence_snoc items keys x :
  by_first_occurrence items keys ->
  Forall (fun k => first_index k items < first_index x items) keys ->
  by_first_occurrence items (keys ++ [x]).
Proof.
  induction keys as [|k keys IH]; intros H Hx; simpl; [done|].
  simpl in H. destruct H as [Hk H]. apply Forall_cons in Hx as [Hkx Hx].
  split; [|by apply IH]. apply Forall_app. split; [done|]. by constructor.
Qed.

Lemma tally_keys x counts :
  map fst (tally x counts)
  = if forallb (fun p => negb (same_key (fst p) x)) counts
    then map fst counts ++ [x] else map fst counts.
Proof.
  induction counts as [|[y n] counts IH]; simpl; [done|].
  destruct (same_key y x); simpl; [done|]. rewrite IH.
  by destruct (forallb _ counts).
Qed.

Lemma by_first_occurrence_tally x counts items :
  forallb hashable items = true -> hashable x = true ->
  counted counts items ->
  by_first_occurrence items (map fst counts) ->
  by_first_occurrence (items ++ [x]) (map fst (tally x counts)).
Proof.
  intros Hh Hx (HA & HB & _) Hord.
  assert (Hkey : forall k, k ∈ map fst counts ->
            first_index k (items ++ [x]) = first_index k items
            /\ first_index k items < length items).
  { intros k Hk. apply list_elem_of_fmap in Hk as ([k' n] & -> & Hin).
    destruct (HA _ _ Hin) as [Hk _]. simpl.
    apply (first_index_app_l _ _ _ k' Hk). apply same_key_refl.
    rewrite forallb_forall in Hh. by apply Hh, list_elem_of_In. }
  assert (Hold : by_first_occurrence (items ++ [x]) (map fst counts)).
  { eapply by_first_occurrence_ext; [|exact Hord]. intros k Hk.
    by apply Hkey. }
  rewrite tally_keys.
  destruct (forallb (fun p => negb (same_key (fst p) x)) counts) eqn:E; [|done].
  apply by_first_occurrence_snoc; [done|].
  assert (Hnew : first_index x (items ++ [x]) = length items).
  { rewrite first_index_app_r.
    - simpl. rewrite same_key_refl by done. lia.
    - apply Forall_forall. intros w Hw.
      destruct (same_key x w) eqn:Exw; [|done]. exfalso.
      destruct (HB w Hw) as (y & n & Hin & Hy).
      rewrite forallb_forall in E. specialize (E _ (proj1 (list_elem_of_In _ _) Hin)).
      simpl in E.
      rewrite (same_key_trans y w x Hy (same_key_sym _ _ Exw)) in E. done. }
  apply Forall_forall. intros k Hk. destruct (Hkey k Hk) as [-> Hlt].
  by rewrite Hnew.
Qed.

Lemma by_first_occurrence_fold items seen counts :
  forallb hashable seen = true -> forallb hashable items = true ->
  counted counts seen ->
  by_first_occurrence seen (map fst counts) ->
  by_first_occurrence (seen ++ items)
    (map fst (fold_left (fun counts x => tally x counts) items counts)).
Proof.
  revert seen counts.
  induction items as [|x items IH]; intros seen counts Hs Hi Hc Ho.
  - by rewrite app_nil_r.
  - simpl in *. apply andb_true_iff in Hi as [Hx Hi].
    replace (seen ++ x :: items) with ((seen ++ [x]) ++ items)
      by (by rewrite <- app_assoc).
    apply IH; [|done| |].
    + rewrite forallb_app, Hs. simpl. by rewrite Hx.
    + by apply counted_tally.
    + by apply by_first_occurrence_tally.
Qed.

Lemma insert_by_count_ranked items p l :
  ranked items l ->
  Forall (fun q => first_index (fst p) items < first_index (fst q) items) l ->
  ranked items (insert_by_count p l).
Proof.
  induction l as [|q l IH]; intros Hr Hp; simpl; [done|].
  simpl in Hr. destruct Hr as [Hq Hr]. apply Forall_cons in Hp as [Hpq Hp].
  destruct (Nat.ltb_spec (snd p) (snd q)) as [Hlt|Hge]; simpl.
  - split; [|by apply IH].
    rewrite insert_by_count_Permutation. constructor; [by left | done].
  - split; [|done].
    assert (Hone : forall r, snd r <= snd p ->
               first_index (fst p) items < first_index (fst r) items ->
               outranks items p r).
    { intros r Hle Hfi. unfold outranks.
      destruct (decide (snd r = snd p)); [right | left; lia]. done. }
    constructor; [by apply Hone|].
    rewrite Forall_forall in *. intros r Hin. apply Hone; [|by apply Hp].
    destruct (Hq r Hin) as [?|[? _]]; lia.
Qed.

Lemma sorted_by_count_ranked items counts :
  by_first_occurrence items (map fst counts) ->
  ranked items (sorted_by_count counts).
Proof.
  induction counts as [|p counts IH]; simpl; [done|]. intros [Hp Ho].
  apply insert_by_count_ranked; [by apply IH|].
  rewrite sorted_by_count_Permutation. by rewrite Forall_fmap in Hp.
Qed.

Lemma ranked_take items k l : ranked items l -> ranked items (take k l).
Proof.
  revert k. induction l as [|p l IH]; intros k Hd; [by destruct k|].
  destruct k as [|k]; [done|]. simpl in *. destruct Hd as [Hp Hd].
  split; [|by apply IH]. apply Forall_forall. intros q Hq.
  apply (proj1 (Forall_forall _ _) Hp).
  apply elem_of_take in Hq as (i & Hi & _). by eapply list_elem_of_lookup_2.
Qed.

Lemma ranked_lookup items l i j p q :
  ranked items l -> i < j -> l !! i = Some p -> l !! j = Some q ->
  outranks items p q.
Proof.
  revert i j. induction l as [|r l IH]; intros i j Hd Hij Hi Hj; [done|].
  simpl in Hd. destruct Hd as [Hr Hd].
  destruct j as [|j]; [lia|]. simpl in Hj.
  destruct i as [|i]; simpl in Hi.
  - inversion Hi; subst.
    apply (proj1 (Forall_forall _ _) Hr). by eapply list_elem_of_lookup_2.
  - apply (IH i j); [done | lia | done..].
Qed.

(** The order of the rows of [analyze_list_column]: of two rows, the upper
    one has the greater frequency, or the same frequency and an element that
    occurs first in the lists of the column read from top to bottom. *)
Theorem analyze_list_column_ties (df : table) (col_name : string) (top_k : Z)
    (s : column) :
  getitem df col_name = Ok s ->
  Forall (fun x => plain_item x = true) (list_items (cells s)) ->
  let items := list_items (cells s) in
  exists top,
    analyze_list_column df col_name top_k = Ok (frequency_frame top)
    /\ forall i j x y n m,
         i < j -> top !! i = Some (x, n) -> top !! j = Some (y, m) ->
         m < n \/ (m = n /\ first_index x items < first_index y items).
Proof.
  intros Hg Hplain items.
  unfold analyze_list_column. rewrite (getitem_has_column _ _ _ Hg), Hg. simpl.
  fold items. unfold Counter.
  pose proof (plain_items_hashable items Hplain) as Hh. rewrite Hh. simpl.
  eexists. split; [reflexivity|].
  intros i j x y n m Hij Hi Hj.
  change (outranks items (x, n) (y, m)).
  eapply (ranked_lookup items); [|exact Hij | exact Hi | exact Hj].
  unfold most_common. apply ranked_take, sorted_by_count_ranked.
  apply (by_first_occurrence_fold items [] []); [done | done | | done].
  apply counted_nil.
Qed.

Lemma analyze_list_column_ties_witness :
  analyze_list_column recipes_tied_tags "tags" 10
  = Ok (frequency_frame [(Str "vegan", 2); (Str "easy", 2)])
  /\ exists top,
       analyze_list_column recipes_tied_tags "tags" 10 = Ok (frequency_frame top)
       /\ forall i j x y n m,
            i < j -> top !! i = Some (x, n) -> top !! j = Some (y, m) ->
            m < n
            \/ (m = n
                /\ first_index x [Str "vegan"; Str "easy"; Str "easy"; Str "vegan"]
                   < first_index y
                       [Str "vegan"; Str "easy"; Str "easy"; Str "vegan"]).
Proof.
  split; [reflexivity|].
  apply (analyze_list_column_ties recipes_tied_tags "tags" 10
           (plain [Seq [Str "vegan"; Str "easy"];
                   Seq [Str "easy"; Str "vegan"]]) eq_refl).
  repeat constructor.
Defined.
